(** * convert_3mf_to_single_plate: a shallow embedding and its properties

    The embedded program is [src/convert_3mf_to_single_plate.py]: it turns a
    multi-plate Orca / Bambu Studio [.gcode.3mf] bundle into a single-plate
    bundle renumbered to plate 1.

    Conventions of the embedding.
    - A Python [str] is a [string]; a character is an [ascii], so the model
      covers the code points 0..255.  [bytes] is [list Byte.byte].
    - A Python [int] is a [Z]; [str(n)] is stdpp's [pretty].  [int(s)]
      is CPython's: it raises [ValueError] on a literal of more than 4300
      digits, the limit the interpreter starts with.
    - What the program takes from libraries (UTF-8, ElementTree, [re.sub],
      reading a zip container) is the interface [Runtime].
    - An exception is the [Raise] constructor of [result]; the lines printed
      on stdout and stderr are collected in a [log].
    - The destination directory is a finite map from file names to
      [file_data].
    - A container that opens is the list of its entries, and each of them
      can be read: a container one of whose entries [zin.read] fails on
      (a damaged or encrypted entry) is not among the inputs of the
      model. *)

From stdpp Require Import base gmap strings list pretty sorting.
From Stdlib Require Import ZArith Ascii String Strings.Byte Lia.

Local Open Scope Z_scope.

(** stdpp keeps [simpl] from unfolding the concatenation of strings; the
    proofs below compute with it. *)
#[local] Arguments String.append !_ _ / : simpl nomatch.

(* ===================================================================== *)
(** ** Python strings                                                     *)
(* ===================================================================== *)

Module Str.

(** [s.startswith(p)] *)
Fixpoint startswith (s p : string) {struct p} : bool :=
  match p, s with
  | EmptyString, _ => true
  | String a p', String b s' => if decide (a = b) then startswith s' p' else false
  | String _ _, EmptyString => false
  end.

(** [s[n:]] for [0 <= n] *)
Fixpoint drop (n : nat) (s : string) : string :=
  match n, s with
  | O, _ => s
  | S n', String _ s' => drop n' s'
  | S _, EmptyString => EmptyString
  end.

(** [s[:n]] for [0 <= n] *)
Fixpoint take (n : nat) (s : string) : string :=
  match n, s with
  | O, _ => EmptyString
  | S n', String c s' => String c (take n' s')
  | S _, EmptyString => EmptyString
  end.

(** [s.endswith(p)] *)
Definition endswith (s p : string) : bool :=
  (String.length p <=? String.length s)%nat
  && bool_decide (drop (String.length s - String.length p) s = p).

(** [s[:-n]] for [n > 0]: Python clamps when [n] exceeds the length. *)
Definition drop_last (n : nat) (s : string) : string :=
  take (String.length s - n) s.

(** [p in s] for strings *)
Fixpoint contains (s p : string) : bool :=
  startswith s p ||
  match s with
  | EmptyString => false
  | String _ s' => contains s' p
  end.

(** [s.replace(old, new)] for a non-empty [old]: occurrences are replaced
    from left to right and do not overlap.  [skip] counts the characters of
    an occurrence already replaced. *)
Fixpoint replace_go (old new : string) (skip : nat) (s : string) : string :=
  match s with
  | EmptyString => EmptyString
  | String c s' =>
      match skip with
      | S k => replace_go old new k s'
      | O =>
          if startswith s old
          then new +:+ replace_go old new (String.length old - 1) s'
          else String c (replace_go old new O s')
      end
  end.

(** With an empty [old] Python puts [new] before every character and at
    the end. *)
Fixpoint intersperse (new s : string) : string :=
  match s with
  | EmptyString => new
  | String c s' => new +:+ String c (intersperse new s')
  end.

Definition replace (s old new : string) : string :=
  match old with
  | EmptyString => intersperse new s
  | String _ _ => replace_go old new O s
  end.

(** The characters [str.isspace] accepts among the code points 0..255:
    TAB..CR, FS..US, space, NEL and the no-break space. *)
Definition isspace (c : ascii) : bool :=
  let n := nat_of_ascii c in
  ((9 <=? n) && (n <=? 13) || (28 <=? n) && (n <=? 32)
   || (n =? 133) || (n =? 160))%nat.

(** [s.lstrip()] and [s.lstrip(chars)] through the predicate on characters *)
Fixpoint lstrip_by (f : ascii → bool) (s : string) : string :=
  match s with
  | EmptyString => EmptyString
  | String c s' => if f c then lstrip_by f s' else s
  end.

Fixpoint rstrip_by (f : ascii → bool) (s : string) : string :=
  match s with
  | EmptyString => EmptyString
  | String c s' =>
      match rstrip_by f s' with
      | EmptyString => if f c then EmptyString else String c EmptyString
      | r => String c r
      end
  end.

(** [s.strip()] *)
Definition strip (s : string) : string := rstrip_by isspace (lstrip_by isspace s).

(** [s.lstrip("/")] *)
Definition lstrip_slash (s : string) : string :=
  lstrip_by (λ c, bool_decide (c = "/"%char)) s.

(** [s.rsplit("/", 1)[-1]]: what follows the last slash.  [cur] is the
    part read since the last slash seen. *)
Fixpoint after_last_slash (cur s : string) : string :=
  match s with
  | EmptyString => cur
  | String c s' =>
      if decide (c = "/"%char) then after_last_slash EmptyString s'
      else after_last_slash (cur +:+ String c EmptyString) s'
  end.

Definition basename (s : string) : string := after_last_slash EmptyString s.

(** [c.lower()] on the code points 0..255: A..Z, and the Latin-1 capitals
    except the multiplication sign. *)
Definition lower_char (c : ascii) : ascii :=
  let n := nat_of_ascii c in
  if ((65 <=? n) && (n <=? 90))%nat then ascii_of_nat (n + 32)
  else if ((192 <=? n) && (n <=? 222) && negb (n =? 215))%nat
       then ascii_of_nat (n + 32)
  else c.

Fixpoint lower (s : string) : string :=
  match s with
  | EmptyString => EmptyString
  | String c s' => String (lower_char c) (lower s')
  end.

(** The characters [\d] accepts and [int] reads among the code points
    0..255 are the ten ASCII digits. *)
Definition isdigit (c : ascii) : bool :=
  let n := nat_of_ascii c in ((48 <=? n) && (n <=? 57))%nat.

Definition digit_value (c : ascii) : Z := Z.of_nat (nat_of_ascii c) - 48.

(** The longest prefix of [s] whose characters satisfy [f], and the rest. *)
Fixpoint span (f : ascii → bool) (s : string) : string * string :=
  match s with
  | EmptyString => (EmptyString, EmptyString)
  | String c s' =>
      if f c then let '(a, b) := span f s' in (String c a, b)
      else (EmptyString, s)
  end.

Fixpoint forallb (f : ascii → bool) (s : string) : bool :=
  match s with
  | EmptyString => true
  | String c s' => f c && forallb f s'
  end.

(** The digits of an [int] literal: decimal digits, a single underscore
    allowed between two of them.  [prev] tells whether the character before
    was a digit. *)
Fixpoint int_digits (acc : Z) (prev : bool) (s : string) : option Z :=
  match s with
  | EmptyString => if prev then Some acc else None
  | String c s' =>
      if isdigit c then int_digits (10 * acc + digit_value c) true s'
      else if decide (c = "_"%char)
           then (if prev then int_digits acc false s' else None)
      else None
  end.

(** The white space [int] skips around a literal, among the code points
    0..255: TAB..CR and the space, and NEL and the no-break space, which
    CPython turns into spaces before it reads the literal.  The separators
    FS..US, white space to [str.strip], are none to [int]. *)
Definition int_isspace (c : ascii) : bool :=
  let n := nat_of_ascii c in
  ((9 <=? n) && (n <=? 13) || (n =? 32) || (n =? 133) || (n =? 160))%nat.

(** [sys.get_int_max_str_digits()] as the interpreter starts: [int]
    raises [ValueError] on a decimal literal of more digits. *)
Definition int_max_str_digits : nat := 4300.

(** The digits of a literal, which the limit counts: underscores are
    not counted, leading zeros are. *)
Fixpoint count_digits (s : string) : nat :=
  match s with
  | EmptyString => O
  | String c s' => if isdigit c then S (count_digits s') else count_digits s'
  end.

(** A literal without its sign. *)
Definition int_literal (r : string) : option Z :=
  if (int_max_str_digits <? count_digits r)%nat then None
  else int_digits 0 false r.

(** [int(v)]: [None] stands for [ValueError]. *)
Definition int (v : string) : option Z :=
  match rstrip_by int_isspace (lstrip_by int_isspace v) with
  | EmptyString => None
  | String c r =>
      if decide (c = "+"%char) then int_literal r
      else if decide (c = "-"%char) then Z.opp <$> int_literal r
      else int_literal (String c r)
  end.

(** [str(n)] and the [{n}] of an f-string *)
Definition str (n : Z) : string := pretty n.

End Str.

Import Str.

(* ===================================================================== *)
(** ** Data model                                                         *)
(* ===================================================================== *)

Definition bytes := list Byte.byte.

#[global] Instance byte_eq_dec : EqDecision Byte.byte := Byte.byte_eq_dec.

(** An exception raised and not caught is [Raise] with its message. *)
Inductive result (A : Type) : Type :=
| Ok (a : A)
| Raise (e : string).
Arguments Ok {A} a.
Arguments Raise {A} e.

(** A line printed by [info] (stdout) or [warn] (stderr). *)
Inductive line : Type :=
| Stdout (s : string)
| Stderr (s : string).

Definition log := list line.

Definition warn (msg : string) : log := [Stderr ("WARNING: " +:+ msg)].
Definition info (msg : string) : log := [Stdout msg].

(** An [xml.etree.ElementTree.Element]: its tag, its attribute dictionary
    in insertion order and its children.  Text and tail are not read by
    the program. *)
#[warnings="-register-all"]
Inductive Element : Type :=
| mkElement (tag : string) (attrib : list (string * string)) (children : list Element).

Definition tag (e : Element) : string := let 'mkElement t _ _ := e in t.
Definition attrib (e : Element) : list (string * string) := let 'mkElement _ a _ := e in a.
Definition children (e : Element) : list Element := let 'mkElement _ _ c := e in c.

(** [e.attrib.get(k)] *)
Fixpoint attrib_get (a : list (string * string)) (k : string) : option string :=
  match a with
  | [] => None
  | (k', v) :: a' => if decide (k' = k) then Some v else attrib_get a' k
  end.

(** [e.set(k, v)]: the value of an existing key is replaced where it
    stands, a new key goes last. *)
Fixpoint attrib_set (a : list (string * string)) (k v : string) : list (string * string) :=
  match a with
  | [] => [(k, v)]
  | (k', v') :: a' => if decide (k' = k) then (k, v) :: a' else (k', v') :: attrib_set a' k v
  end.

Definition set (e : Element) (k v : string) : Element :=
  mkElement (tag e) (attrib_set (attrib e) k v) (children e).

(** [e.findall("./t")]: the children of [e] with tag [t], in order. *)
Definition findall (e : Element) (t : string) : list Element :=
  List.filter (λ c, bool_decide (tag c = t)) (children e).

(** An entry of a zip container: its name and its content. *)
Definition entry := (string * bytes)%type.

(** [z.namelist()] *)
Definition namelist (z : list entry) : list string := List.map fst z.

(** [z.read(name)]: [zipfile] keeps the last entry of a name; [None]
    stands for [KeyError].  Reading an entry that is there does not
    fail. *)
Fixpoint z_read (z : list entry) (name : string) : option bytes :=
  match z with
  | [] => None
  | (n, d) :: z' =>
      match z_read z' name with
      | Some d' => Some d'
      | None => if decide (n = name) then Some d else None
      end
  end.

(** What a file of the destination directory holds: bytes written as
    they are, or a container built by [zipfile.ZipFile(path, "w")] and one
    [writestr] for each entry, in order. *)
Inductive file_data : Type :=
| RawBytes (b : bytes)
| ZipArchive (es : list entry).

(** The destination directory. *)
Record FS : Type := mkFS {
  dir_exists : bool;
  files : gmap string file_data
}.

(** The input file: [input_path.name] and [input_path.read_bytes()]. *)
Record Input : Type := mkInput {
  input_name : string;
  input_bytes : bytes
}.

(** What the program takes from its libraries. *)
Class Runtime : Type := {
  (** [b.decode("utf-8")], [None] for [UnicodeDecodeError] *)
  utf8_decode : bytes → option string;
  (** [s.encode("utf-8")] *)
  utf8_encode : string → bytes;
  (** [ET.fromstring(s)], [None] for [ET.ParseError] *)
  ET_fromstring : string → option Element;
  (** [ET.tostring(e, encoding="utf-8", xml_declaration=True).decode("utf-8")] *)
  ET_tostring : Element → string;
  (** [re.sub(pattern, repl, s)] *)
  re_sub : string → string → string → string;
  (** the entries [zipfile.ZipFile(path, "r")] finds in a file of these
      bytes, [None] for [zipfile.BadZipFile] *)
  zip_read : bytes → option (list entry);
  (** the empty text is no document: [ET.fromstring("")] raises
      [ParseError] (no element found) *)
  ET_fromstring_empty : ET_fromstring "" = None
}.

(** The entries of a file of the destination directory. *)
Definition archive_of `{Runtime} (d : file_data) : option (list entry) :=
  match d with
  | RawBytes b => zip_read b
  | ZipArchive es => Some es
  end.

(** [l.sort(key=key)]: a stable sort, here by insertion. *)
Fixpoint insert_by {A} (key : A → Z) (x : A) (l : list A) : list A :=
  match l with
  | [] => [x]
  | y :: l' => if key x <=? key y then x :: l else y :: insert_by key x l'
  end.

Definition sort_by {A} (key : A → Z) (l : list A) : list A :=
  List.fold_right (insert_by key) [] l.

(* ===================================================================== *)
(** ** The program                                                        *)
(* ===================================================================== *)

Definition MAC_JUNK_PREFIXES : list string := ["__MACOSX/"].
Definition MAC_JUNK_FILES : list string := [".DS_Store"].

(** [PLATE_FILE_RX = re.compile(r"^(Metadata/)(.+?)_(\d+)(\.[^/]+)$")]
    with [PLATE_FILE_RX.match], as the backtracking matcher runs it.

    [num_ext] matches [(\d+)(\.[^/]+)$] at the start of [s].  The greedy
    [\d+] takes the longest run of digits; giving a digit back leaves a
    digit where [\.] is expected, so no shorter run matches.  The greedy
    [[^/]+] takes every character up to the first slash, line ends
    included, and [$] then needs the end of the string. *)
Definition not_slash (c : ascii) : bool := negb (bool_decide (c = "/"%char)).
Definition not_newline (c : ascii) : bool := negb (bool_decide (c = "010"%char)).

Definition num_ext (s : string) : option (string * string) :=
  let '(num, rest) := span isdigit s in
  match rest with
  | String c e =>
      if bool_decide (num ≠ "") && bool_decide (c = "."%char)
         && bool_decide (e ≠ "") && Str.forallb not_slash e
      then Some (num, rest) else None
  | EmptyString => None
  end.

(** [stem_num_ext stem s] matches [(.+?)_(\d+)(\.[^/]+)$] where [stem] is
    what the lazy [.+?] holds so far and [s] what is left to read: the
    shortest stem is tried first, and the stem grows by one character,
    never a line end, when the rest does not match. *)
Fixpoint stem_num_ext (stem s : string) : option (string * string * string) :=
  match s with
  | EmptyString => None
  | String c s' =>
      let here :=
        match stem with
        | EmptyString => None
        | String _ _ => if decide (c = "_"%char) then num_ext s' else None
        end in
      match here with
      | Some (num, ext) => Some (stem, num, ext)
      | None =>
          if not_newline c then stem_num_ext (stem +:+ String c EmptyString) s'
          else None
      end
  end.

(** The groups of [PLATE_FILE_RX.match(name)], [None] when it is no match. *)
Definition PLATE_FILE_RX_match (name : string) : option (string * string * string * string) :=
  if startswith name "Metadata/" then
    match stem_num_ext EmptyString (drop (String.length "Metadata/") name) with
    | Some (stem, num, ext) => Some ("Metadata/", stem, num, ext)
    | None => None
    end
  else None.

Record PlateInfo : Type := mkPlateInfo {
  plater_id : Z;
  gcode_file : string;
  xml_plate_elem : Element
}.

Definition is_mac_junk (name : string) : bool :=
  if List.existsb (λ p, startswith name p) MAC_JUNK_PREFIXES then true
  else
    let base := basename name in
    if bool_decide (base ∈ MAC_JUNK_FILES) then true else false.

(** The entries the program works on: no junk, no directory. *)
Definition nonjunk_names (names : list string) : list string :=
  List.filter (λ n, negb (is_mac_junk n) && negb (endswith n "/")) names.

Definition flatten_wrapper_prefix (names : list string) : list string * string :=
  let nonjunk := nonjunk_names names in
  if bool_decide ("[Content_Types].xml" ∈ nonjunk) then (names, "")
  else
    let candidates := List.filter (λ n, endswith n "/[Content_Types].xml") nonjunk in
    match sort_by (λ n, Z.of_nat (String.length n)) candidates with
    | [] => (names, "")
    | candidate :: _ =>
        let prefix := drop_last (String.length "[Content_Types].xml") candidate in
        if List.forallb (λ n, startswith n prefix) nonjunk
        then (names, prefix)
        else (names, "")
    end.

Section Program.
Context `{Runtime}.

Definition read_text (z : list entry) (name : string) : log * option string :=
  match z_read z name with
  | None => ([], None)
  | Some b =>
      match utf8_decode b with
      | Some text => ([], Some text)
      | None => (warn ("Could not decode as UTF-8: " +:+ name), None)
      end
  end.

(** One turn of the loop over the [<metadata>] children of a plate in
    [parse_model_settings_config]; the state is [(plater_id, gcode_file)]. *)
Definition parse_metadata (st : option Z * string) (md : Element) : option Z * string :=
  let k := attrib_get (attrib md) "key" in
  let v := default "" (attrib_get (attrib md) "value") in
  if decide (k = Some "plater_id") then
    match int v with
    | Some n => (Some n, st.2)
    | None => st
    end
  else if decide (k = Some "gcode_file") then (st.1, v)
  else st.

Definition parse_plate (plate_elem : Element) : list PlateInfo :=
  let '(plater_id, gcode_file) :=
    List.fold_left parse_metadata (findall plate_elem "metadata") (None, "") in
  match plater_id with
  | Some n => [mkPlateInfo n gcode_file plate_elem]
  | None => []
  end.

Definition parse_model_settings_config (xml_text : string) : result (list PlateInfo) :=
  match ET_fromstring xml_text with
  | None => Raise "Failed to parse model_settings.config XML"
  | Some root => Ok (List.flat_map parse_plate (findall root "plate"))
  end.

(** [p.gcode_file.strip()] is true. *)
Definition has_gcode_file (p : PlateInfo) : bool :=
  negb (bool_decide (strip (gcode_file p) = "")).

(** The loop of [detect_exported_plate_id] that fills [candidates]. *)
Definition gcode_candidates (names : list string) (prefix : string) (plates : list PlateInfo)
  : list (Z * string) :=
  List.flat_map
    (λ p, if has_gcode_file p then
            let gpath := prefix +:+ lstrip_slash (gcode_file p) in
            if bool_decide (gpath ∈ names) then [(plater_id p, gpath)] else []
          else [])
    plates.

Definition detect_exported_plate_id (z : list entry) (names : list string) (prefix : string)
  : log * result (Z * string) :=
  let ms_name := prefix +:+ "Metadata/model_settings.config" in
  let '(w, ms_text) := read_text z ms_name in
  match ms_text with
  | None | Some EmptyString =>
      (w, Raise "Missing or unreadable Metadata/model_settings.config")
  | Some ms_text =>
      match parse_model_settings_config ms_text with
      | Raise e => (w, Raise e)
      | Ok [] => (w, Raise "No <plate> entries found in Metadata/model_settings.config")
      | Ok plates =>
          let candidates := gcode_candidates names prefix plates in
          match sort_by fst candidates with
          | c :: _ => (w, Ok (c.1, c.2))
          | [] =>
              let nonempty := List.filter has_gcode_file plates in
              match nonempty with
              | [p] =>
                  let gpath := prefix +:+ lstrip_slash (gcode_file p) in
                  (w ++ warn ("gcode_file listed but not found in archive: " +:+ gcode_file p),
                   Ok (plater_id p, gpath))
              | _ =>
                  (w ++ warn "Could not confidently detect exported plate from gcode_file; defaulting to plate 1",
                   Ok (1, prefix +:+ "Metadata/plate_1.gcode"))
              end
          end
      end
  end.

(** [name.rfind(".")] *)
Fixpoint rfind_dot (s : string) : option nat :=
  match s with
  | EmptyString => None
  | String c s' =>
      match rfind_dot s' with
      | Some i => Some (S i)
      | None => if decide (c = "."%char) then Some O else None
      end
  end.

(** [pathlib]'s [stem] and [suffix] of a file name, as CPython up to 3.13
    defines them: the name is cut at its last dot when that dot is neither
    its first nor its last character. *)
Definition stem_suffix (name : string) : string * string :=
  match rfind_dot name with
  | Some i =>
      if ((0 <? i) && (i <? String.length name - 1))%nat
      then (take i name, drop i name)
      else (name, "")
  | None => (name, "")
  end.

(** [f"{base}_plate{exported_plate_id}{ext}"] and
    [f"{base}_plate{exported_plate_id}_{i}{ext}"] *)
Definition candidate_name (base ext : string) (exported_plate_id : Z) : string :=
  base +:+ "_plate" +:+ str exported_plate_id +:+ ext.

Definition candidate_i_name (base ext : string) (exported_plate_id i : Z) : string :=
  base +:+ "_plate" +:+ str exported_plate_id +:+ "_" +:+ str i +:+ ext.

(** [path.exists()] for a file name of the destination directory *)
Definition file_exists (fs : FS) (name : string) : bool :=
  bool_decide (is_Some (files fs !! name)).

(** The [while True] loop of [compute_output_path] from [i] on.  A free
    name is found before [fuel] runs out when [fuel] exceeds the number of
    files of the directory ([first_free_spec]). *)
Fixpoint first_free (fs : FS) (base ext : string) (exported_plate_id : Z)
    (fuel : nat) (i : Z) : string :=
  let candidate_i := candidate_i_name base ext exported_plate_id i in
  match fuel with
  | O => candidate_i
  | S fuel' =>
      if file_exists fs candidate_i
      then first_free fs base ext exported_plate_id fuel' (i + 1)
      else candidate_i
  end.

(** [base] and [ext] in [compute_output_path]. *)
Definition base_ext (name : string) : string * string :=
  if endswith (lower name) ".gcode.3mf"
  then (drop_last (String.length ".gcode.3mf") name, ".gcode.3mf")
  else stem_suffix name.

(** The file name chosen in [out_dir], and the directory after
    [out_dir.mkdir(parents=True, exist_ok=True)]. *)
Definition compute_output_path (fs : FS) (name : string) (exported_plate_id : Z)
  : string * FS :=
  let fs' := mkFS true (files fs) in
  let '(base, ext) := base_ext name in
  let candidate := candidate_name base ext exported_plate_id in
  if file_exists fs' candidate
  then (first_free fs' base ext exported_plate_id (S (size (files fs'))) 1, fs')
  else (candidate, fs').

Definition rewrite_xml_cover_rels (xml_text : string) (old_plate new_plate : Z) : string :=
  let s := xml_text in
  let s := replace s ("/Metadata/plate_" +:+ str old_plate +:+ ".png")
                     ("/Metadata/plate_" +:+ str new_plate +:+ ".png") in
  let s := replace s ("/Metadata/plate_" +:+ str old_plate +:+ "_small.png")
                     ("/Metadata/plate_" +:+ str new_plate +:+ "_small.png") in
  s.

(** The [pid] a plate ends with in the first loop of
    [rewrite_model_settings_config]: the last [plater_id] metadata decides,
    and a value that is no integer resets it. *)
Definition rewrite_pid (pid : option Z) (md : Element) : option Z :=
  if decide (attrib_get (attrib md) "key" = Some "plater_id")
  then int (default "" (attrib_get (attrib md) "value"))
  else pid.

Definition plate_pid (plate_elem : Element) : option Z :=
  List.fold_left rewrite_pid (findall plate_elem "metadata") None.

(** The first plate whose [pid] is [keep_plate_id]. *)
Definition find_keep_elem (plates : list Element) (keep_plate_id : Z) : option Element :=
  List.find (λ p, bool_decide (plate_pid p = Some keep_plate_id)) plates.

(** The second loop of [rewrite_model_settings_config], on one
    [<metadata>] child of the kept plate. *)
Definition rewrite_plate_metadata (keep_plate_id new_plate_id : Z) (md : Element) : Element :=
  let k := attrib_get (attrib md) "key" in
  let v := default "" (attrib_get (attrib md) "value") in
  if decide (k = Some "plater_id") then set md "value" (str new_plate_id)
  else
    let old := str keep_plate_id in
    let new := str new_plate_id in
    let v2 := v in
    let v2 := replace v2 ("plate_" +:+ old +:+ ".gcode") ("plate_" +:+ new +:+ ".gcode") in
    let v2 := replace v2 ("plate_" +:+ old +:+ ".png") ("plate_" +:+ new +:+ ".png") in
    let v2 := replace v2 ("plate_" +:+ old +:+ "_small.png") ("plate_" +:+ new +:+ "_small.png") in
    let v2 := replace v2 ("plate_no_light_" +:+ old +:+ ".png") ("plate_no_light_" +:+ new +:+ ".png") in
    let v2 := replace v2 ("top_" +:+ old +:+ ".png") ("top_" +:+ new +:+ ".png") in
    let v2 := replace v2 ("pick_" +:+ old +:+ ".png") ("pick_" +:+ new +:+ ".png") in
    let v2 := replace v2 ("front_" +:+ old +:+ ".png") ("front_" +:+ new +:+ ".png") in
    let v2 := replace v2 ("back_" +:+ old +:+ ".png") ("back_" +:+ new +:+ ".png") in
    let v2 := replace v2 ("plate_" +:+ old +:+ ".json") ("plate_" +:+ new +:+ ".json") in
    if decide (v2 = v) then md else set md "value" v2.

(** An element whose children with tag [t] are rewritten by [f], the
    others left as they are: the in-place edits of a loop over
    [e.findall("./t")]. *)
Definition map_children (t : string) (f : Element → Element) (e : Element) : Element :=
  mkElement (tag e) (attrib e)
    (List.map (λ c, if bool_decide (tag c = t) then f c else c) (children e)).

(** [root] after every [<plate>] child is removed and [keep_elem] appended. *)
Definition keep_only (root keep_elem : Element) : Element :=
  mkElement (tag root) (attrib root)
    (List.filter (λ c, negb (bool_decide (tag c = "plate"))) (children root) ++ [keep_elem]).

(** [Raise] stands for the [ET.ParseError] of [ET.fromstring], which this
    function does not catch. *)
Definition rewrite_model_settings_config (xml_text : string) (keep_plate_id new_plate_id : Z)
  : log * result string :=
  match ET_fromstring xml_text with
  | None => ([], Raise "ParseError")
  | Some root =>
      let plates := findall root "plate" in
      match plates with
      | [] => ([], Ok xml_text)
      | _ =>
          match find_keep_elem plates keep_plate_id with
          | None =>
              (warn ("Could not find plate " +:+ str keep_plate_id
                     +:+ " in model_settings.config; leaving XML unchanged"),
               Ok xml_text)
          | Some keep_elem =>
              let keep_elem' :=
                map_children "metadata" (rewrite_plate_metadata keep_plate_id new_plate_id) keep_elem in
              ([], Ok (ET_tostring (keep_only root keep_elem')))
          end
      end
  end.

(** The [idx] a plate of [slice_info.config] ends its loop with. *)
Definition slice_idx (idx : option Z) (md : Element) : option Z :=
  if decide (attrib_get (attrib md) "key" = Some "index")
  then int (default "" (attrib_get (attrib md) "value"))
  else idx.

Definition rewrite_slice_info_config (xml_text : string) (keep_plate_id new_plate_id : Z)
  : log * string :=
  match ET_fromstring xml_text with
  | None => (warn "Failed to parse slice_info.config; leaving unchanged", xml_text)
  | Some root =>
      let plate_elems := findall root "plate" in
      match plate_elems with
      | [] => ([], xml_text)
      | first :: _ =>
          let keep_elem :=
            default first
              (List.find
                 (λ pe, bool_decide
                          (List.fold_left slice_idx (findall pe "metadata") None = Some keep_plate_id))
                 plate_elems) in
          let keep_elem' :=
            map_children "metadata"
              (λ md, if decide (attrib_get (attrib md) "key" = Some "index")
                     then set md "value" (str new_plate_id) else md)
              keep_elem in
          ([], ET_tostring (keep_only root keep_elem'))
      end
  end.

(** The replacement templates are the f-strings of the source with
    [new_plate_id] filled in; the regular expressions are passed to
    [re.sub] as written there, the quote character being [dq]. *)
Definition dq : string := String (ascii_of_nat 34) EmptyString.

Definition rewrite_3dmodel_thumbnails (xml_text : string) (new_plate_id : Z) : string :=
  let xml_text :=
    re_sub ("(<metadata\s+name=" +:+ dq +:+ "Thumbnail_Middle" +:+ dq
            +:+ ">)\s*/Metadata/plate_\d+\.png(\s*</metadata>)")
           ("\1/Metadata/plate_" +:+ str new_plate_id +:+ ".png\2")
           xml_text in
  let xml_text :=
    re_sub ("(<metadata\s+name=" +:+ dq +:+ "Thumbnail_Small" +:+ dq
            +:+ ">)\s*/Metadata/plate_\d+_small\.png(\s*</metadata>)")
           ("\1/Metadata/plate_" +:+ str new_plate_id +:+ "_small.png\2")
           xml_text in
  xml_text.

(** [int(num_s)] raises [ValueError] when the pattern captured more than
    [int_max_str_digits] digits: the entry is then kept under its name. *)
Definition rename_or_drop_plate_file (name : string) (keep_plate_id new_plate_id : Z)
  : bool * string :=
  match PLATE_FILE_RX_match name with
  | None => (true, name)
  | Some (prefix, stem, num_s, ext) =>
      match int num_s with
      | None => (true, name)
      | Some num =>
          if decide (num ≠ keep_plate_id) then (false, name)
          else (true, prefix +:+ stem +:+ "_" +:+ str new_plate_id +:+ ext)
      end
  end.

(** [n[len(prefix):] if prefix and n.startswith(prefix) else n] *)
Definition strip_prefix (prefix n : string) : string :=
  if negb (bool_decide (prefix = "")) && startswith n prefix
  then drop (String.length prefix) n
  else n.

(** The loop of [is_already_single_plate] over the names: [Ok false] when
    it runs to its end, [Ok true] when it returns [False] from inside,
    [Raise] for the [ValueError] of [int]. *)
Fixpoint other_plate_asset (prefix : string) (names : list string) : result bool :=
  match names with
  | [] => Ok false
  | n :: names' =>
      if is_mac_junk n || endswith n "/" then other_plate_asset prefix names'
      else
        let nn := strip_prefix prefix n in
        match PLATE_FILE_RX_match nn with
        | None => other_plate_asset prefix names'
        | Some (_, _, num_s, _) =>
            match int num_s with
            | None => Raise "ValueError"
            | Some num =>
                if decide (num ≠ 1) then Ok true
                else other_plate_asset prefix names'
            end
        end
  end.

Definition is_already_single_plate (z : list entry) (names : list string) (prefix : string)
  : log * result bool :=
  let '(w, ms) := read_text z (prefix +:+ "Metadata/model_settings.config") in
  match ms with
  | None | Some EmptyString => (w, Ok false)
  | Some ms =>
      match parse_model_settings_config ms with
      | Raise _ => (w, Ok false)
      | Ok plates =>
          match plates with
          | [only] =>
              if decide (plater_id only ≠ 1) then (w, Ok false)
              else
                match other_plate_asset prefix names with
                | Raise e => (w, Raise e)
                | Ok true => (w, Ok false)
                | Ok false =>
                    let '(w', rels_text) := read_text z (prefix +:+ "_rels/.rels") in
                    match rels_text with
                    | None | Some EmptyString => (w ++ w', Ok true)
                    | Some rels_text =>
                        if contains rels_text "plate_2" || contains rels_text "plate_3"
                        then (w ++ w', Ok false)
                        else (w ++ w', Ok true)
                    end
                end
          | _ => (w, Ok false)
          end
      end
  end.

(** The [if]/[elif] chain of [convert] on the documents it knows: the
    content written for an entry, and what is printed. *)
Definition rewrite_known_file (new_name : string) (data : bytes) (exported_plate_id : Z)
  : log * bytes :=
  if decide (new_name = "_rels/.rels") then
    match utf8_decode data with
    | Some text => ([], utf8_encode (rewrite_xml_cover_rels text exported_plate_id 1))
    | None => (warn "Failed to rewrite _rels/.rels; leaving as-is", data)
    end
  else if decide (new_name = "Metadata/_rels/model_settings.config.rels") then
    match utf8_decode data with
    | Some text =>
        ([], utf8_encode
               (replace text ("/Metadata/plate_" +:+ str exported_plate_id +:+ ".gcode")
                        "/Metadata/plate_1.gcode"))
    | None => (warn "Failed to rewrite Metadata/_rels/model_settings.config.rels; leaving as-is", data)
    end
  else if decide (new_name = "Metadata/model_settings.config") then
    match utf8_decode data with
    | Some text =>
        match rewrite_model_settings_config text exported_plate_id 1 with
        | (w, Ok text') => (w, utf8_encode text')
        | (w, Raise e) =>
            (w ++ warn ("Failed to rewrite model_settings.config (" +:+ e +:+ "); leaving as-is"), data)
        end
    | None => (warn "Failed to rewrite model_settings.config (UnicodeDecodeError); leaving as-is", data)
    end
  else if decide (new_name = "Metadata/slice_info.config") then
    match utf8_decode data with
    | Some text =>
        let '(w, text') := rewrite_slice_info_config text exported_plate_id 1 in
        (w, utf8_encode text')
    | None => (warn "Failed to rewrite slice_info.config; leaving as-is", data)
    end
  else if decide (new_name = "3D/3dmodel.model") then
    match utf8_decode data with
    | Some text => ([], utf8_encode (rewrite_3dmodel_thumbnails text 1))
    | None => (warn "Failed to rewrite 3D/3dmodel.model thumbnail metadata; leaving as-is", data)
    end
  else ([], data).

(** One turn of the loop of [convert] over [normalized_names]: what is
    printed and the entry written to [zout], if any.  [Raise] stands for
    the [KeyError] of [zin.read]. *)
Definition convert_entry (z : list entry) (prefix : string) (exported_plate_id : Z)
    (orig_name : string) : result (log * option entry) :=
  match z_read z orig_name with
  | None => Raise "KeyError"
  | Some data =>
      let name := strip_prefix prefix orig_name in
      let '(keep, new_name) := rename_or_drop_plate_file name exported_plate_id 1 in
      if negb keep then Ok ([], None)
      else
        let '(w, data') := rewrite_known_file new_name data exported_plate_id in
        Ok (w, Some (new_name, data'))
  end.

(** The loop of [convert]: the entries written to [zout] so far are
    [written].  The result is what has been printed, the entries written,
    and the exception that stopped the loop if one did. *)
Fixpoint write_entries (z : list entry) (prefix : string) (exported_plate_id : Z)
    (normalized_names : list string) (written : list entry)
  : log * list entry * option string :=
  match normalized_names with
  | [] => ([], written, None)
  | orig_name :: rest =>
      match convert_entry z prefix exported_plate_id orig_name with
      | Raise e => ([], written, Some e)
      | Ok (w, new_entry) =>
          let '(w', es, err) :=
            write_entries z prefix exported_plate_id rest (written ++ option_list new_entry) in
          (w ++ w', es, err)
      end
  end.

(** [convert(input_path, out_dir)]: what is printed, the name of the file
    written in [out_dir] or the exception, and the directory afterwards.
    A path of [out_dir] is given by its file name, also in what is
    printed. *)
Definition convert (fs : FS) (inp : Input) : log * result string * FS :=
  match zip_read (input_bytes inp) with
  | None => ([], Raise "BadZipFile", fs)
  | Some zin =>
      let names := namelist zin in
      let '(_, prefix) := flatten_wrapper_prefix names in
      let normalized_names := nonjunk_names names in
      match detect_exported_plate_id zin names prefix with
      | (w, Raise e) => (w, Raise e, fs)
      | (w, Ok (exported_plate_id, exported_gcode_path)) =>
          let '(out_path, fs1) := compute_output_path fs (input_name inp) exported_plate_id in
          match is_already_single_plate zin names prefix with
          | (w1, Raise e) => (w ++ w1, Raise e, fs1)
          | (w1, Ok true) =>
              (w ++ w1 ++ info ("Already single-plate (plate 1). Copying through -> " +:+ out_path),
               Ok out_path,
               mkFS (dir_exists fs1) (<[out_path := RawBytes (input_bytes inp)]> (files fs1)))
          | (w1, Ok false) =>
              let w2 :=
                info ("Detected exported plate: " +:+ str exported_plate_id)
                ++ info ("Writing single-plate (renumbered to plate 1): " +:+ out_path) in
              let '(w3, es, err) :=
                write_entries zin prefix exported_plate_id normalized_names [] in
              let fs2 := mkFS (dir_exists fs1) (<[out_path := ZipArchive es]> (files fs1)) in
              match err with
              | Some e => (w ++ w1 ++ w2 ++ w3, Raise e, fs2)
              | None =>
                  (w ++ w1 ++ w2 ++ w3 ++ info ("Done. Wrote " +:+ out_path), Ok out_path, fs2)
              end
          end
      end
  end.

End Program.

(* ===================================================================== *)
(** ** The notions the properties are stated with                         *)
(* ===================================================================== *)

(** [name] is read as [Metadata/<stem>_<num><ext>]: a stem that is not
    empty and holds no line end, a run of digits, and an extension made of
    a dot and at least one more character, none of them a slash. *)
Definition plate_numbered (name stem num ext : string) : Prop :=
  name = "Metadata/" +:+ stem +:+ "_" +:+ num +:+ ext
  ∧ stem ≠ "" ∧ Str.forallb not_newline stem = true
  ∧ num ≠ "" ∧ Str.forallb isdigit num = true
  ∧ ∃ e, ext = String "."%char e ∧ e ≠ "" ∧ Str.forallb not_slash e = true.

(** The path in the archive a plate refers to: [prefix] and its
    [gcode_file] without leading slashes. *)
Definition gcode_path (prefix : string) (p : PlateInfo) : string :=
  prefix +:+ lstrip_slash (gcode_file p).

(** A plate whose [gcode_file] is more than white space and whose file is
    among the names of the archive. *)
Definition exported (prefix : string) (names : list string) (p : PlateInfo) : bool :=
  has_gcode_file p && bool_decide (gcode_path prefix p ∈ names).

(** A [<plate>] element with a [plater_id] metadata whose value is an
    integer. *)
Definition has_plater_id (plate_elem : Element) : bool :=
  List.existsb
    (λ md, bool_decide (attrib_get (attrib md) "key" = Some "plater_id")
           && bool_decide (is_Some (int (default "" (attrib_get (attrib md) "value")))))
    (findall plate_elem "metadata").





(** No underscore of [s] is followed by a digit: the stems of the plate
    assets ([plate], [plate_no_light], [top], [pick]) are such. *)
Fixpoint no_underscore_digit (s : string) : bool :=
  match s with
  | EmptyString => true
  | String c s' =>
      (negb (bool_decide (c = "_"%char))
       || match s' with String d _ => negb (isdigit d) | EmptyString => true end)
      && no_underscore_digit s'
  end.

(** The [idx] a plate of [slice_info.config] ends the loop of
    [rewrite_slice_info_config] with: the last [index] metadata decides. *)
Definition slice_index (plate_elem : Element) : option Z :=
  List.fold_left slice_idx (findall plate_elem "metadata") None.

(** A [<metadata>] element whose key is [index]. *)
Definition index_metadata (c : Element) : bool :=
  bool_decide (tag c = "metadata")
  && bool_decide (attrib_get (attrib c) "key" = Some "index").

(** A child that is no [<plate>] element. *)
Definition not_plate (c : Element) : bool := negb (bool_decide (tag c = "plate")).

(* ===================================================================== *)
(** ** A small runtime and sample archives                                *)
(* ===================================================================== *)

(** The sample inputs below are run with this instance of [Runtime]: text
    is ASCII, documents are printed by [print_element] and parsed by
    looking the text up among the documents of a table, and a file is a
    container when its bytes are in a table of containers.  The sample
    documents hold no [Thumbnail_Middle] or [Thumbnail_Small] metadata, on
    which [re.sub] with the patterns of the program changes nothing. *)
Module Sample.

Fixpoint print_attrib (a : list (string * string)) : string :=
  match a with
  | [] => ""
  | (k, v) :: a' => " " +:+ k +:+ "='" +:+ v +:+ "'" +:+ print_attrib a'
  end.

Fixpoint print_element (e : Element) : string :=
  let 'mkElement t a cs := e in
  match cs with
  | [] => "<" +:+ t +:+ print_attrib a +:+ " />"
  | _ =>
      "<" +:+ t +:+ print_attrib a +:+ ">"
      +:+ (fix print_all (l : list Element) : string :=
             match l with
             | [] => ""
             | c :: l' => print_element c +:+ print_all l'
             end) cs
      +:+ "</" +:+ t +:+ ">"
  end.

Definition ascii_decode (b : bytes) : option string :=
  if List.forallb (λ x, (Byte.to_N x <? 128)%N) b
  then Some (string_of_list_byte b) else None.

Fixpoint lookup_document (docs : list Element) (s : string) : option Element :=
  match docs with
  | [] => None
  | d :: docs' => if decide (print_element d = s) then Some d else lookup_document docs' s
  end.

Fixpoint lookup_container (zips : list (bytes * list entry)) (b : bytes) : option (list entry) :=
  match zips with
  | [] => None
  | (b', es) :: zips' => if decide (b' = b) then Some es else lookup_container zips' b
  end.

Lemma lookup_document_empty (docs : list Element) : lookup_document docs "" = None.
Proof.
  induction docs as [|d docs IH]; simpl; [done|].
  destruct (decide (print_element d = "")) as [E|]; [|done].
  destruct d as [t a [|c cs]]; discriminate E.
Qed.

Definition runtime (docs : list Element) (zips : list (bytes * list entry)) : Runtime := {|
  utf8_decode := ascii_decode;
  utf8_encode := list_byte_of_string;
  ET_fromstring := lookup_document docs;
  ET_tostring := print_element;
  re_sub := λ _ _ s, s;
  zip_read := lookup_container zips;
  ET_fromstring_empty := lookup_document_empty docs
|}.

Definition text (s : string) : bytes := list_byte_of_string s.

Definition metadata (k v : string) : Element :=
  mkElement "metadata" [("key", k); ("value", v)] [].
Definition plate (mds : list Element) : Element := mkElement "plate" [] mds.
Definition config (plates : list Element) : Element := mkElement "config" [] plates.

(** Plate 1 was not sliced, plate 2 was: the scenario of the
    specification. *)
Definition two_plates : Element :=
  config [plate [metadata "plater_id" "1"; metadata "gcode_file" ""];
          plate [metadata "plater_id" "2"; metadata "gcode_file" "Metadata/plate_2.gcode"]].

Definition two_plates_zip : list entry :=
  [("[Content_Types].xml", text "<Types />");
   ("Metadata/model_settings.config", text (print_element two_plates));
   ("Metadata/plate_1.png", text "png1");
   ("Metadata/plate_2.png", text "png2");
   ("Metadata/plate_2.gcode", text "G28");
   (".DS_Store", text "junk")].

Definition two_plates_file : Input := mkInput "foo.gcode.3mf" (text "two plates").

Definition empty_dir : FS := mkFS false ∅.

(** A listing whose only plate has a [gcode_file] of one space. *)
Definition blank_gcode : Element :=
  config [plate [metadata "plater_id" "2"; metadata "gcode_file" " "]].

Definition blank_gcode_zip : list entry :=
  [("[Content_Types].xml", text "<Types />");
   ("Metadata/model_settings.config", text (print_element blank_gcode))].

(** A listing whose plates carry no [plater_id] that is an integer. *)
Definition no_plater_id : Element :=
  config [plate [metadata "gcode_file" "Metadata/plate_1.gcode"];
          plate [metadata "plater_id" "two"]].

Definition no_plater_id_zip : list entry :=
  [("[Content_Types].xml", text "<Types />");
   ("Metadata/model_settings.config", text (print_element no_plater_id));
   ("Metadata/plate_1.gcode", text "G28")].

Definition no_plater_id_file : Input := mkInput "bar.gcode.3mf" (text "no plater id").

(** An archive without a plate listing. *)
Definition no_listing_zip : list entry :=
  [("[Content_Types].xml", text "<Types />");
   ("Metadata/plate_1.gcode", text "G28")].

Definition no_listing_file : Input := mkInput "baz.gcode.3mf" (text "no listing").

(** An archive that is already a single plate with id 1. *)
Definition one_plate : Element :=
  config [plate [metadata "plater_id" "1";
                 metadata "gcode_file" "Metadata/plate_1.gcode"]].

Definition rels_plate_1 : string :=
  "<Relationships><Relationship Target='/Metadata/plate_1.png' Id='rel-2' />"
  +:+ "<Relationship Target='/Metadata/plate_1_small.png' Id='rel-5' /></Relationships>".

Definition one_plate_zip : list entry :=
  [("[Content_Types].xml", text "<Types />");
   ("_rels/.rels", text rels_plate_1);
   ("Metadata/model_settings.config", text (print_element one_plate));
   ("Metadata/plate_1.png", text "png1");
   ("Metadata/plate_1.gcode", text "G28")].

Definition one_plate_file : Input := mkInput "clean.gcode.3mf" (text "one plate").

(** The same archive with what macOS adds to it. *)
Definition one_plate_junk_zip : list entry :=
  one_plate_zip ++ [(".DS_Store", text "junk"); ("__MACOSX/._plate_1.png", text "fork")].

Definition one_plate_junk_file : Input :=
  mkInput "mac.gcode.3mf" (text "one plate, junk").

(** The same archive zipped with its folder [X]. *)
Definition one_plate_wrapped_zip : list entry :=
  List.map (λ e : entry, ("X/" +:+ e.1, e.2)) one_plate_zip.

Definition one_plate_wrapped_file : Input :=
  mkInput "wrapped.gcode.3mf" (text "one plate, wrapped").

(** A single plate with id 1 whose cover thumbnails are those of plate 4. *)
Definition rels_plate_4 : string :=
  "<Relationships><Relationship Target='/Metadata/plate_4.png' Id='rel-2' />"
  +:+ "<Relationship Target='/Metadata/plate_4_small.png' Id='rel-5' /></Relationships>".

Definition one_plate_rels_4_zip : list entry :=
  [("[Content_Types].xml", text "<Types />");
   ("_rels/.rels", text rels_plate_4);
   ("Metadata/model_settings.config", text (print_element one_plate));
   ("Metadata/plate_1.png", text "png1");
   ("Metadata/plate_1.gcode", text "G28")].

(** A run of 4301 digits, one more than [int] reads, and the thumbnail
    that carries it as its plate number. *)
Definition long_number : string := string_of_list_ascii (List.repeat "7"%char 4301).

Definition long_asset : string := "Metadata/plate_" +:+ long_number +:+ ".png".






End Sample.

(* ===================================================================== *)
(** ** Facts about strings                                                *)
(* ===================================================================== *)

Section StringFacts.

Lemma string_app_nil_r (s : string) : s +:+ "" = s.
Proof. induction s as [|c s IH]; simpl; [done | by rewrite IH]. Qed.

Lemma string_app_assoc (a b c : string) : (a +:+ b) +:+ c = a +:+ (b +:+ c).
Proof. induction a as [|x a IH]; simpl; [done | by rewrite IH]. Qed.

Lemma string_length_app (a b : string) :
  String.length (a +:+ b) = (String.length a + String.length b)%nat.
Proof. induction a as [|x a IH]; simpl; [done | by rewrite IH]. Qed.

Lemma string_app_inv_head (a b c : string) : a +:+ b = a +:+ c → b = c.
Proof. apply String.app_inj. Qed.

Lemma startswith_app (p r : string) : startswith (p +:+ r) p = true.
Proof.
  induction p as [|c p IH]; simpl; [done|].
  destruct (decide (c = c)); [done | congruence].
Qed.

Lemma startswith_inv (s p : string) : startswith s p = true → ∃ r, s = p +:+ r.
Proof.
  revert s. induction p as [|c p IH]; intros s Hs; simpl in *.
  - by exists s.
  - destruct s as [|b s]; [done|].
    destruct (decide (c = b)) as [->|]; [|done].
    destruct (IH _ Hs) as [r ->]. by exists r.
Qed.

Lemma string_drop_app (p r : string) : drop (String.length p) (p +:+ r) = r.
Proof. induction p as [|c p IH]; simpl; [done | apply IH]. Qed.

Lemma string_take_app (p r : string) : take (String.length p) (p +:+ r) = p.
Proof. induction p as [|c p IH]; simpl; [done | by rewrite IH]. Qed.

Lemma string_take_drop (n : nat) (s : string) : take n s +:+ drop n s = s.
Proof.
  revert s. induction n as [|n IH]; intros [|c s]; simpl; try done.
  by rewrite IH.
Qed.

Lemma endswith_app (r p : string) : endswith (r +:+ p) p = true.
Proof.
  unfold endswith. rewrite string_length_app.
  apply andb_true_iff. split; [apply Nat.leb_le; lia|].
  apply bool_decide_eq_true.
  replace (String.length r + String.length p - String.length p)%nat
    with (String.length r) by lia.
  apply string_drop_app.
Qed.

Lemma endswith_inv (s p : string) : endswith s p = true → ∃ r, s = r +:+ p.
Proof.
  unfold endswith. intros [Hl Hd%bool_decide_eq_true]%andb_true_iff.
  exists (take (String.length s - String.length p) s).
  pose proof (string_take_drop (String.length s - String.length p) s) as E.
  by rewrite Hd in E.
Qed.

Lemma drop_last_app (r p : string) : drop_last (String.length p) (r +:+ p) = r.
Proof.
  unfold drop_last. rewrite string_length_app.
  replace (String.length r + String.length p - String.length p)%nat
    with (String.length r) by lia.
  apply string_take_app.
Qed.

Lemma contains_startswith (s p : string) : startswith s p = true → contains s p = true.
Proof. destruct s; simpl; by intros ->. Qed.

Lemma contains_app (a p b : string) : contains (a +:+ p +:+ b) p = true.
Proof.
  induction a as [|c a IH]; simpl.
  - apply contains_startswith, startswith_app.
  - rewrite IH. apply orb_true_r.
Qed.


Lemma string_span_app (f : ascii → bool) (a : string) (c : ascii) (b : string) :
  Str.forallb f a = true → f c = false → span f (a +:+ String c b) = (a, String c b).
Proof.
  intros Ha Hc. induction a as [|x a IH]; simpl in *.
  - by rewrite Hc.
  - apply andb_true_iff in Ha as [-> Ha]. by rewrite IH.
Qed.

Lemma string_span_inv (f : ascii → bool) (s a b : string) :
  span f s = (a, b) →
  s = a +:+ b ∧ Str.forallb f a = true
  ∧ match b with String c _ => f c = false | EmptyString => True end.
Proof.
  revert a b. induction s as [|c s IH]; intros a b; simpl.
  - by intros [= <- <-].
  - destruct (f c) eqn:Hc.
    + destruct (span f s) as [a' b'] eqn:E. intros [= <- <-].
      destruct (IH _ _ eq_refl) as (-> & ? & ?). simpl. by rewrite Hc.
    + intros [= <- <-]. simpl. by rewrite Hc.
Qed.

Lemma lstrip_by_id (f : ascii → bool) (s : string) :
  match s with String c _ => f c = false | EmptyString => True end →
  lstrip_by f s = s.
Proof. destruct s as [|c s]; simpl; [done | by intros ->]. Qed.

Lemma rstrip_by_id (f : ascii → bool) (s : string) :
  Str.forallb (λ c, negb (f c)) s = true → rstrip_by f s = s.
Proof.
  induction s as [|c s IH]; simpl; [done|].
  intros [Hc Hs]%andb_true_iff. rewrite (IH Hs).
  destruct s; [|done]. by destruct (f c).
Qed.

Lemma isdigit_not_int_isspace (c : ascii) : isdigit c = true → int_isspace c = false.
Proof.
  unfold isdigit, int_isspace. generalize (nat_of_ascii c). intros n Hn.
  apply andb_true_iff in Hn as [H1%Nat.leb_le H2%Nat.leb_le].
  repeat (apply orb_false_iff; split); try (apply andb_false_iff);
    rewrite ?Nat.leb_gt, ?Nat.eqb_neq; lia.
Qed.

Lemma isdigit_not_sign (c : ascii) :
  isdigit c = true → c ≠ "+"%char ∧ c ≠ "-"%char ∧ c ≠ "_"%char ∧ c ≠ "."%char.
Proof. intros Hc. repeat split; intros ->; discriminate Hc. Qed.

Lemma string_forallb_impl (f g : ascii → bool) (s : string) :
  (∀ c, f c = true → g c = true) → Str.forallb f s = true → Str.forallb g s = true.
Proof.
  intros Hfg. induction s as [|c s IH]; simpl; [done|].
  intros [Hc Hs]%andb_true_iff. by rewrite (Hfg _ Hc), IH.
Qed.

Lemma int_strip_digits (s : string) :
  Str.forallb isdigit s = true → rstrip_by int_isspace (lstrip_by int_isspace s) = s.
Proof.
  intros Hs. rewrite lstrip_by_id.
  - apply rstrip_by_id. revert Hs. apply string_forallb_impl.
    intros c Hc. by rewrite (isdigit_not_int_isspace c Hc).
  - destruct s as [|c s]; [done|]. simpl in Hs.
    apply andb_true_iff in Hs as [Hc _]. by apply isdigit_not_int_isspace.
Qed.

(** Every character of a run of digits counts for the limit. *)
Lemma count_digits_run (s : string) :
  Str.forallb isdigit s = true → count_digits s = String.length s.
Proof.
  induction s as [|c s IH]; simpl; [done|].
  intros [-> Hs]%andb_true_iff. by rewrite IH.
Qed.

Lemma digit_value_nonneg (c : ascii) : isdigit c = true → 0 ≤ digit_value c.
Proof.
  unfold isdigit, digit_value. intros [H1%Nat.leb_le _]%andb_true_iff. lia.
Qed.

Lemma int_digits_run (s : string) (acc : Z) (prev : bool) :
  Str.forallb isdigit s = true → (s ≠ "" ∨ prev = true) → 0 ≤ acc →
  ∃ n, int_digits acc prev s = Some n ∧ 0 ≤ n.
Proof.
  revert acc prev. induction s as [|c s IH]; intros acc prev Hs Hne Hacc; simpl in *.
  - destruct Hne as [? | ->]; [done|]. by exists acc.
  - apply andb_true_iff in Hs as [Hc Hs]. rewrite Hc.
    apply IH; [done | by right |].
    pose proof (digit_value_nonneg c Hc). lia.
Qed.

(** [int] reads a non-empty run of at most [int_max_str_digits] digits,
    as a number that is not negative, and no longer run. *)
Lemma int_digits_ok (s : string) :
  Str.forallb isdigit s = true → s ≠ "" →
  (String.length s ≤ int_max_str_digits)%nat →
  ∃ n, int s = Some n ∧ 0 ≤ n.
Proof.
  intros Hs Hne Hlen. unfold int. rewrite (int_strip_digits s Hs).
  destruct s as [|c r]; [done|].
  pose proof Hs as Hs'. simpl in Hs'. apply andb_true_iff in Hs' as [Hc _].
  destruct (isdigit_not_sign c Hc) as (? & ? & _).
  rewrite !decide_False by done. unfold int_literal.
  rewrite (count_digits_run _ Hs), (proj2 (Nat.ltb_ge _ _)) by lia.
  apply int_digits_run; [done | by left | lia].
Qed.

Lemma int_digits_long (s : string) :
  Str.forallb isdigit s = true →
  (int_max_str_digits < String.length s)%nat →
  int s = None.
Proof.
  intros Hs Hlen. unfold int. rewrite (int_strip_digits s Hs).
  destruct s as [|c r]; [done|].
  pose proof Hs as Hs'. simpl in Hs'. apply andb_true_iff in Hs' as [Hc _].
  destruct (isdigit_not_sign c Hc) as (? & ? & _).
  rewrite !decide_False by done. unfold int_literal.
  by rewrite (count_digits_run _ Hs), (proj2 (Nat.ltb_lt _ _)) by lia.
Qed.

End StringFacts.

(* ===================================================================== *)
(** ** The pattern of plate-numbered assets                               *)
(* ===================================================================== *)

Section PlatePattern.

Lemma num_ext_inv (s num ext : string) :
  num_ext s = Some (num, ext) →
  s = num +:+ ext ∧ num ≠ "" ∧ Str.forallb isdigit num = true
  ∧ ∃ e, ext = String "."%char e ∧ e ≠ "" ∧ Str.forallb not_slash e = true.
Proof.
  unfold num_ext. destruct (span isdigit s) as [n r] eqn:E.
  apply string_span_inv in E as (-> & Hn & _).
  destruct r as [|c e]; [done|].
  destruct (_ && _) eqn:Hc; [|done]. intros [= <- <-].
  apply andb_true_iff in Hc as [Hc Hs].
  apply andb_true_iff in Hc as [Hc He%bool_decide_eq_true].
  apply andb_true_iff in Hc as [Hc%bool_decide_eq_true ->%bool_decide_eq_true].
  repeat split; try done. by exists e.
Qed.

Lemma num_ext_complete (num e : string) :
  num ≠ "" → Str.forallb isdigit num = true →
  e ≠ "" → Str.forallb not_slash e = true →
  num_ext (num +:+ String "."%char e) = Some (num, String "."%char e).
Proof.
  intros Hn Hd He Hs. unfold num_ext.
  rewrite (string_span_app isdigit num "."%char e Hd eq_refl).
  rewrite Hs, !bool_decide_eq_true_2 by done. done.
Qed.

Lemma stem_num_ext_inv (s acc stem num ext : string) :
  stem_num_ext acc s = Some (stem, num, ext) →
  ∃ t, stem = acc +:+ t ∧ s = t +:+ "_" +:+ num +:+ ext
       ∧ stem ≠ "" ∧ Str.forallb not_newline t = true
       ∧ num_ext (num +:+ ext) = Some (num, ext).
Proof.
  revert acc. induction s as [|c s IH]; intros acc; simpl; [done|].
  destruct (match acc with EmptyString => None | String _ _ => _ end)
    as [[n e]|] eqn:Hhere.
  - intros [= <- <- <-]. destruct acc as [|a acc]; [done|].
    destruct (decide (c = "_"%char)) as [->|]; [|done].
    pose proof (num_ext_inv _ _ _ Hhere) as (-> & _).
    exists "". rewrite string_app_nil_r. by repeat split.
  - destruct (not_newline c) eqn:Hc; [|done]. intros Hrec.
    destruct (IH _ Hrec) as (t & Hst & -> & Hne & Hnl & Hx).
    rewrite string_app_assoc in Hst. simpl in Hst.
    exists (String c t). simpl. rewrite Hc. by repeat split.
Qed.

(** The matcher finds a reading whenever there is one, and its stem is no
    longer than the stem of any reading. *)
Lemma stem_num_ext_complete (t acc num ext : string) :
  acc +:+ t ≠ "" → Str.forallb not_newline t = true →
  num_ext (num +:+ ext) = Some (num, ext) →
  ∃ stem' num' ext',
    stem_num_ext acc (t +:+ "_" +:+ num +:+ ext) = Some (stem', num', ext')
    ∧ (String.length stem' ≤ String.length (acc +:+ t))%nat.
Proof.
  revert acc. induction t as [|c t IH]; intros acc Hne Hnl Hne'.
  - rewrite string_app_nil_r in Hne. simpl. destruct acc as [|a acc]; [done|].
    rewrite Hne'.
    eexists _, _, _. split; [done|]. rewrite string_app_nil_r. lia.
  - simpl in Hnl. apply andb_true_iff in Hnl as [Hc Hnl]. simpl.
    destruct (match acc with EmptyString => None | String _ _ => _ end)
      as [[n e]|] eqn:Hhere.
    + eexists _, _, _. split; [done|]. rewrite string_length_app. lia.
    + rewrite Hc.
      destruct (IH (acc +:+ String c "")) as (s' & n' & e' & Hs & Hl); try done.
      { destruct acc; done. }
      exists s', n', e'. split; [done|].
      rewrite string_app_assoc in Hl. done.
Qed.

Lemma PLATE_FILE_RX_match_inv (name p stem num ext : string) :
  PLATE_FILE_RX_match name = Some (p, stem, num, ext) →
  p = "Metadata/" ∧ plate_numbered name stem num ext.
Proof.
  unfold PLATE_FILE_RX_match.
  destruct (startswith name "Metadata/") eqn:Hp; [|done].
  apply startswith_inv in Hp as [r ->]. rewrite string_drop_app.
  destruct (stem_num_ext "" r) as [[[s n] e]|] eqn:Hm; [|done].
  intros [= <- <- <- <-]. split; [done|].
  apply stem_num_ext_inv in Hm as (t & -> & -> & Hne & Hnl & Hx).
  apply num_ext_inv in Hx as (_ & ? & ? & ?).
  by repeat split.
Qed.

Lemma PLATE_FILE_RX_match_complete (name stem num ext : string) :
  plate_numbered name stem num ext →
  ∃ stem' num' ext',
    PLATE_FILE_RX_match name = Some ("Metadata/", stem', num', ext')
    ∧ (String.length stem' ≤ String.length stem)%nat.
Proof.
  intros (-> & Hne & Hnl & Hn & Hd & e & -> & He & Hs).
  unfold PLATE_FILE_RX_match. rewrite startswith_app, string_drop_app.
  destruct (stem_num_ext_complete stem "" num (String "."%char e))
    as (s' & n' & e' & Hm & Hl); try done.
  { by apply num_ext_complete. }
  rewrite Hm. by exists s', n', e'.
Qed.

End PlatePattern.

Section RenameOrDrop.

(** C3 (as amended).  A name the pattern [PLATE_FILE_RX] matches is read
    as [Metadata/<stem>_<N><ext>], with the shortest stem among the
    readings the name has.  When [N] has at most [int_max_str_digits]
    digits the entry is dropped exactly when the number [N] differs from
    [keep_plate_id], and is otherwise kept under the name
    [Metadata/<stem>_1<ext>]; when [N] has more digits [int] raises and
    the entry is kept under its own name.  A name the pattern does not
    match has no such reading and is kept under its own name. *)
Theorem rename_or_drop_plate_file_spec (name : string) (keep_plate_id : Z) :
  match PLATE_FILE_RX_match name with
  | Some (p, stem, num_s, ext) =>
      p = "Metadata/"
      ∧ plate_numbered name stem num_s ext
      ∧ (∀ stem' num' ext', plate_numbered name stem' num' ext' →
           (String.length stem ≤ String.length stem')%nat)
      ∧ ((String.length num_s ≤ int_max_str_digits)%nat →
         ∃ N, int num_s = Some N ∧ 0 ≤ N
              ∧ rename_or_drop_plate_file name keep_plate_id 1
                = if decide (N = keep_plate_id)
                  then (true, "Metadata/" +:+ stem +:+ "_1" +:+ ext)
                  else (false, name))
      ∧ ((int_max_str_digits < String.length num_s)%nat →
         int num_s = None
         ∧ rename_or_drop_plate_file name keep_plate_id 1 = (true, name))
  | None =>
      (∀ stem num ext, ¬ plate_numbered name stem num ext)
      ∧ rename_or_drop_plate_file name keep_plate_id 1 = (true, name)
  end.
Proof.
  destruct (PLATE_FILE_RX_match name) as [[[[p stem] num_s] ext]|] eqn:Hm.
  - destruct (PLATE_FILE_RX_match_inv _ _ _ _ _ Hm) as [-> Hpat].
    split; [done|]. split; [done|]. split; [|split].
    + intros stem' num' ext' Hpat'.
      destruct (PLATE_FILE_RX_match_complete _ _ _ _ Hpat') as (s & n & e & Hm' & Hl).
      rewrite Hm in Hm'. by injection Hm' as -> -> ->.
    + intros Hlen. destruct Hpat as (_ & _ & _ & Hne & Hd & _).
      destruct (int_digits_ok num_s Hd Hne Hlen) as (N & HN & Hpos).
      exists N. split; [done|]. split; [done|].
      unfold rename_or_drop_plate_file. rewrite Hm, HN.
      destruct (decide (N ≠ keep_plate_id)) as [Hk|Hk].
      * by rewrite decide_False.
      * apply dec_stable in Hk. by rewrite decide_True.
    + intros Hlen. destruct Hpat as (_ & _ & _ & _ & Hd & _).
      pose proof (int_digits_long num_s Hd Hlen) as HN. split; [done|].
      unfold rename_or_drop_plate_file. by rewrite Hm, HN.
  - split.
    + intros stem num ext Hpat.
      destruct (PLATE_FILE_RX_match_complete _ _ _ _ Hpat) as (s & n & e & Hm' & _).
      by rewrite Hm in Hm'.
    + unfold rename_or_drop_plate_file. by rewrite Hm.
Qed.

(** C3, as stated, fails: the thumbnail whose number is a run of 4301
    sevens is matched by the pattern and its number is not 2, yet with
    plate 2 kept the entry is not dropped. *)
Lemma rename_keeps_long_number :
  let name := Sample.long_asset in
  PLATE_FILE_RX_match name = Some ("Metadata/", "plate", Sample.long_number, ".png")
  ∧ Str.forallb isdigit Sample.long_number = true
  ∧ String.length Sample.long_number = 4301%nat
  ∧ int Sample.long_number = None
  ∧ rename_or_drop_plate_file name 2 1 = (true, name).
Proof. by vm_compute. Qed.

End RenameOrDrop.

(* ===================================================================== *)
(** ** The output path                                                    *)
(* ===================================================================== *)

Section OutputPath.

Lemma string_app_inv_tail (a b c : string) : a +:+ c = b +:+ c → a = b.
Proof.
  intros E.
  assert (String.length a = String.length b) as Hl.
  { apply (f_equal String.length) in E. rewrite !string_length_app in E. lia. }
  rewrite <- (string_take_app a c), E, Hl. apply string_take_app.
Qed.

Lemma candidate_i_name_inj (base ext : string) (id i j : Z) :
  candidate_i_name base ext id i = candidate_i_name base ext id j → i = j.
Proof.
  unfold candidate_i_name. intros E.
  do 4 apply string_app_inv_head in E.
  apply string_app_inv_tail in E. by apply (inj pretty) in E.
Qed.

(** The loop stops at the first index from [i] on whose name is free, as
    long as that index comes before the fuel runs out. *)
Lemma first_free_steps (fs : FS) (base ext : string) (id : Z) (fuel : nat) (i : Z) :
  ∃ k : nat,
    (k ≤ fuel)%nat
    ∧ first_free fs base ext id fuel i = candidate_i_name base ext id (i + Z.of_nat k)
    ∧ (∀ j : nat, (j < k)%nat →
         file_exists fs (candidate_i_name base ext id (i + Z.of_nat j)) = true)
    ∧ ((k < fuel)%nat →
         file_exists fs (candidate_i_name base ext id (i + Z.of_nat k)) = false).
Proof.
  revert i. induction fuel as [|fuel IH]; intros i; simpl.
  - exists O. rewrite Z.add_0_r. repeat split; [done | lia | lia].
  - destruct (file_exists fs (candidate_i_name base ext id i)) eqn:Hex.
    + destruct (IH (i + 1)) as (k & Hk & Hout & Hbelow & Hfree).
      exists (S k). replace (i + Z.of_nat (S k)) with (i + 1 + Z.of_nat k) by lia.
      split; [lia|]. split; [done|]. split.
      * intros [|j] Hj; [by rewrite Z.add_0_r|].
        replace (i + Z.of_nat (S j)) with (i + 1 + Z.of_nat j) by lia.
        apply Hbelow. lia.
      * intros ?. apply Hfree. lia.
    + exists O. rewrite Z.add_0_r. repeat split; [lia | lia | done].
Qed.

(** More names than the directory has files cannot all be taken. *)
Lemma not_all_taken (fs : FS) (base ext : string) (id i : Z) (n : nat) :
  (∀ j : nat, (j < n)%nat →
     file_exists fs (candidate_i_name base ext id (i + Z.of_nat j)) = true) →
  (n ≤ size (files fs))%nat.
Proof.
  intros Hall.
  set (f := λ j : nat, candidate_i_name base ext id (i + Z.of_nat j)).
  assert (NoDup (f <$> seq 0 n)) as Hnd.
  { apply NoDup_fmap_2; [|apply NoDup_seq].
    intros x y E. apply candidate_i_name_inj in E. lia. }
  assert ((list_to_set (f <$> seq 0 n) : gset string) ⊆ dom (files fs)) as Hsub.
  { intros x [y [-> Hy%elem_of_seq]]%elem_of_list_to_set%list_elem_of_fmap.
    apply elem_of_dom. specialize (Hall y ltac:(lia)).
    by apply bool_decide_eq_true in Hall. }
  apply subseteq_size in Hsub.
  rewrite size_list_to_set, length_fmap, length_seq, size_dom in Hsub; done.
Qed.

Lemma first_free_spec (fs : FS) (base ext : string) (id : Z) :
  ∃ k : nat,
    first_free fs base ext id (S (size (files fs))) 1
    = candidate_i_name base ext id (1 + Z.of_nat k)
    ∧ (∀ j : nat, (j < k)%nat →
         file_exists fs (candidate_i_name base ext id (1 + Z.of_nat j)) = true)
    ∧ file_exists fs (candidate_i_name base ext id (1 + Z.of_nat k)) = false.
Proof.
  destruct (first_free_steps fs base ext id (S (size (files fs))) 1)
    as (k & Hk & Hout & Hbelow & Hfree).
  exists k. split; [done|]. split; [done|].
  apply Hfree. pose proof (not_all_taken fs base ext id 1 k Hbelow). lia.
Qed.

Lemma length_lower (s : string) : String.length (lower s) = String.length s.
Proof. induction s as [|c s IH]; simpl; [done | by rewrite IH]. Qed.

Lemma lower_drop (n : nat) (s : string) : lower (drop n s) = drop n (lower s).
Proof.
  revert n. induction s as [|c s IH]; intros [|n]; simpl; done.
Qed.

Lemma base_ext_gcode_3mf (name : string) :
  endswith (lower name) ".gcode.3mf" = true →
  ∃ base e, name = base +:+ e ∧ lower e = ".gcode.3mf"
            ∧ base_ext name = (base, ".gcode.3mf").
Proof.
  intros He. unfold base_ext. rewrite He.
  pose proof He as [_ Hd%bool_decide_eq_true]%andb_true_iff.
  rewrite length_lower in Hd.
  exists (take (String.length name - String.length ".gcode.3mf") name),
         (drop (String.length name - String.length ".gcode.3mf") name).
  split; [by rewrite string_take_drop|]. split; [|done].
  by rewrite lower_drop.
Qed.

(** C9 (as amended).  The name is [<base>_plate<id><ext>] when no file of
    the directory has it, and otherwise the first free name among
    [<base>_plate<id>_1<ext>], [<base>_plate<id>_2<ext>], ...; no file of
    the directory has the name returned.  [ext] is [.gcode.3mf] for an
    input name that ends so in any case of the letters, with [base] the
    name before it, and the suffix of the name otherwise. *)
Theorem compute_output_path_spec (fs : FS) (name : string) (exported_plate_id : Z) :
  let base := (base_ext name).1 in
  let ext := (base_ext name).2 in
  let out := (compute_output_path fs name exported_plate_id).1 in
  files fs !! out = None
  ∧ (if file_exists fs (candidate_name base ext exported_plate_id)
     then ∃ k : nat,
            out = candidate_i_name base ext exported_plate_id (1 + Z.of_nat k)
            ∧ ∀ j : nat, (j < k)%nat →
                file_exists fs (candidate_i_name base ext exported_plate_id (1 + Z.of_nat j)) = true
     else out = candidate_name base ext exported_plate_id)
  ∧ (if endswith (lower name) ".gcode.3mf"
     then ext = ".gcode.3mf" ∧ ∃ e, name = base +:+ e ∧ lower e = ".gcode.3mf"
     else (base, ext) = stem_suffix name).
Proof.
  unfold compute_output_path.
  destruct (base_ext name) as [base ext] eqn:Hbe. cbn [fst snd].
  change (file_exists (mkFS true (files fs)) ?n) with (file_exists fs n).
  assert (∀ n, file_exists fs n = false → files fs !! n = None) as Hfree.
  { intros n Hn%bool_decide_eq_false. by apply eq_None_not_Some. }
  split; [|split].
  - destruct (file_exists fs (candidate_name base ext exported_plate_id)) eqn:Hex; cbn [fst].
    + destruct (first_free_spec (mkFS true (files fs)) base ext exported_plate_id)
        as (k & -> & _ & Hk).
      by apply Hfree.
    + by apply Hfree.
  - destruct (file_exists fs (candidate_name base ext exported_plate_id)) eqn:Hex; cbn [fst].
    + destruct (first_free_spec (mkFS true (files fs)) base ext exported_plate_id)
        as (k & -> & Hbelow & _).
      by exists k.
    + done.
  - destruct (endswith (lower name) ".gcode.3mf") eqn:He.
    + destruct (base_ext_gcode_3mf name He) as (b & e & Hn & Hl & Hb).
      rewrite Hbe in Hb. injection Hb as -> ->. split; [done|]. by exists e.
    + unfold base_ext in Hbe. by rewrite He in Hbe.
Qed.

(** C9, as stated, fails: the name chosen for an input that is no
    [.gcode.3mf] keeps the suffix of the input. *)
Lemma compute_output_path_other_suffix :
  (compute_output_path Sample.empty_dir "foo.3mf" 2).1 = "foo_plate2.3mf"
  ∧ endswith "foo_plate2.3mf" ".gcode.3mf" = false
  ∧ file_exists Sample.empty_dir "foo_plate2.gcode.3mf" = false.
Proof. by vm_compute. Qed.

End OutputPath.

(* ===================================================================== *)
(** ** Parsing the plate listing and detecting the exported plate         *)
(* ===================================================================== *)

Section Detection.
Context `{Runtime}.

Lemma insert_by_perm {A} (key : A → Z) (x : A) (l : list A) :
  insert_by key x l ≡ₚ x :: l.
Proof.
  induction l as [|y l IH]; simpl; [done|].
  destruct (key x <=? key y); [done|]. rewrite IH. apply Permutation_swap.
Qed.

Lemma sort_by_perm {A} (key : A → Z) (l : list A) : sort_by key l ≡ₚ l.
Proof.
  induction l as [|x l IH]; simpl; [done|].
  by rewrite insert_by_perm, IH.
Qed.

Lemma insert_by_sorted {A} (key : A → Z) (x : A) (l : list A) :
  StronglySorted (λ a b, key a ≤ key b) l →
  StronglySorted (λ a b, key a ≤ key b) (insert_by key x l).
Proof.
  induction 1 as [|y l Hs IH Hy]; simpl.
  - repeat constructor.
  - destruct (key x <=? key y) eqn:E.
    + apply Z.leb_le in E. constructor; [by constructor|].
      constructor; [done|]. eapply Forall_impl; [exact Hy|]. simpl. lia.
    + apply Z.leb_gt in E. constructor; [done|].
      rewrite insert_by_perm. constructor; [lia | done].
Qed.

Lemma sort_by_sorted {A} (key : A → Z) (l : list A) :
  StronglySorted (λ a b, key a ≤ key b) (sort_by key l).
Proof.
  induction l as [|x l IH]; simpl; [constructor | by apply insert_by_sorted].
Qed.

(** The first element of the sorted list is an element of the list with
    the lowest key. *)
Lemma sort_by_head {A} (key : A → Z) (l : list A) (c : A) (r : list A) :
  sort_by key l = c :: r → c ∈ l ∧ ∀ x, x ∈ l → key c ≤ key x.
Proof.
  intros E. pose proof (sort_by_sorted key l) as Hs.
  pose proof (sort_by_perm key l) as Hp. rewrite E in Hs, Hp.
  split.
  - rewrite <- Hp. by left.
  - intros x Hx. rewrite <- Hp in Hx.
    apply StronglySorted_inv in Hs as [_ Hall].
    apply elem_of_cons in Hx as [->|Hx]; [lia|].
    by apply (proj1 (Forall_forall _ _) Hall).
Qed.

Lemma sort_by_nil {A} (key : A → Z) (l : list A) : sort_by key l = [] → l = [].
Proof.
  intros E. pose proof (sort_by_perm key l) as Hp. rewrite E in Hp.
  by apply Permutation_nil_l in Hp.
Qed.

(** The candidates of [detect_exported_plate_id] are the exported plates,
    in the order of the listing. *)
Lemma candidates_exported (prefix : string) (names : list string) (plates : list PlateInfo) :
  gcode_candidates names prefix plates
  = List.map (λ p, (plater_id p, gcode_path prefix p))
      (List.filter (exported prefix names) plates).
Proof.
  unfold gcode_candidates, exported, gcode_path. cbv zeta.
  induction plates as [|p plates IH]; [done|].
  cbn [List.flat_map List.filter]. rewrite IH.
  destruct (has_gcode_file p); cbn [andb app]; [|done].
  by destruct (bool_decide _).
Qed.

(** What [parse_plate] keeps of a plate: the last [plater_id] that is an
    integer.  The plate is left out when it has none. *)
Lemma parse_plate_nil (e : Element) : parse_plate e = [] ↔ has_plater_id e = false.
Proof.
  unfold parse_plate, has_plater_id.
  assert (∀ l st,
    (List.fold_left parse_metadata l st).1 = None
    ↔ st.1 = None
      ∧ List.existsb
          (λ md, bool_decide (attrib_get (attrib md) "key" = Some "plater_id")
                 && bool_decide (is_Some (int (default "" (attrib_get (attrib md) "value")))))
          l = false) as Hfold.
  { induction l as [|md l IH]; intros st; simpl.
    - split; [by intros ? | by intros [? _]].
    - rewrite IH. unfold parse_metadata.
      destruct (decide (attrib_get (attrib md) "key" = Some "plater_id")) as [Hk|Hk].
      + rewrite (bool_decide_eq_true_2 _ Hk). simpl.
        destruct (int _) as [n|] eqn:Hn; simpl.
        * split; [by intros [? _] | by intros [_ ?]].
        * done.
      + rewrite (bool_decide_eq_false_2 _ Hk). simpl.
        by destruct (decide (attrib_get (attrib md) "key" = Some "gcode_file")). }
  specialize (Hfold (findall e "metadata") (None, "")).
  destruct (List.fold_left parse_metadata _ _) as [[n|] g]; simpl in *.
  - split; [done|]. intros Hex. destruct Hfold as [_ Hf].
    by specialize (Hf (conj eq_refl Hex)).
  - split; [|done]. intros _. by apply Hfold.
Qed.

Lemma parse_plate_elem (e : Element) (p : PlateInfo) :
  p ∈ parse_plate e → parse_plate e = [p] ∧ xml_plate_elem p = e.
Proof.
  unfold parse_plate.
  destruct (List.fold_left parse_metadata _ _) as [[n|] g]; [|by intros ?%elem_of_nil].
  by intros ->%list_elem_of_singleton.
Qed.

Lemma parse_plates_elems (plate_elems : list Element) :
  xml_plate_elem <$> List.flat_map parse_plate plate_elems
  = List.filter has_plater_id plate_elems.
Proof.
  induction plate_elems as [|e l IH]; simpl; [done|].
  rewrite fmap_app, IH.
  destruct (has_plater_id e) eqn:He.
  - destruct (parse_plate e) as [|p [|q r]] eqn:Hp.
    + apply parse_plate_nil in Hp. congruence.
    + destruct (parse_plate_elem e p) as [_ <-]; [rewrite Hp; by left|]. done.
    + destruct (parse_plate_elem e p) as [Hp' _]; [rewrite Hp; by left|]. congruence.
  - apply parse_plate_nil in He. by rewrite He.
Qed.

End Detection.

Section DetectionSpec.
Context `{Runtime}.

Lemma parse_empty_text : parse_model_settings_config "" = Raise "Failed to parse model_settings.config XML".
Proof. unfold parse_model_settings_config. by rewrite ET_fromstring_empty. Qed.

(** C2 (as amended).  With the plate listing read and parsed into at least
    one plate, detection returns the lowest [plater_id] among the plates
    whose [gcode_file] is more than white space and whose path ([prefix]
    and the reference without leading slashes) is a name of the archive,
    with that path; failing those, the only plate whose [gcode_file] is
    more than white space, with a warning; failing that, plate 1 with the
    path [prefix + "Metadata/plate_1.gcode"] and a warning. *)
Theorem detect_exported_plate_id_spec (z : list entry) (names : list string)
    (prefix : string) (w : log) (text : string) (plates : list PlateInfo) :
  read_text z (prefix +:+ "Metadata/model_settings.config") = (w, Some text) →
  parse_model_settings_config text = Ok plates →
  plates ≠ [] →
  match List.filter (exported prefix names) plates with
  | _ :: _ =>
      ∃ p, p ∈ List.filter (exported prefix names) plates
           ∧ (∀ q, q ∈ List.filter (exported prefix names) plates → plater_id p ≤ plater_id q)
           ∧ detect_exported_plate_id z names prefix
             = (w, Ok (plater_id p, gcode_path prefix p))
  | [] =>
      match List.filter has_gcode_file plates with
      | [p] =>
          detect_exported_plate_id z names prefix
          = (w ++ warn ("gcode_file listed but not found in archive: " +:+ gcode_file p),
             Ok (plater_id p, gcode_path prefix p))
      | _ =>
          detect_exported_plate_id z names prefix
          = (w ++ warn "Could not confidently detect exported plate from gcode_file; defaulting to plate 1",
             Ok (1, prefix +:+ "Metadata/plate_1.gcode"))
      end
  end.
Proof.
  intros Hread Hparse Hne. unfold detect_exported_plate_id. rewrite Hread.
  destruct text as [|c text].
  { by rewrite parse_empty_text in Hparse. }
  rewrite Hparse. destruct plates as [|p0 ps]; [done|].
  rewrite candidates_exported.
  destruct (List.filter (exported prefix names) (p0 :: ps)) as [|e es] eqn:Hex.
  - cbn [List.map sort_by List.fold_right].
    by destruct (List.filter has_gcode_file (p0 :: ps)) as [|? [|? ?]].
  - destruct (sort_by fst _) as [|c' r] eqn:Hs.
    { apply sort_by_nil in Hs. discriminate Hs. }
    apply sort_by_head in Hs as [Hin Hmin].
    apply list_elem_of_fmap in Hin as (p & -> & Hp).
    exists p. split; [done|]. split; [|done].
    intros q Hq. apply (Hmin (plater_id q, gcode_path prefix q)).
    apply list_elem_of_fmap. by exists q.
Qed.

(** C2, as stated, fails: a [gcode_file] of white space is not empty, yet
    detection does not select its plate. *)
Lemma detect_blank_gcode_file :
  let rt := Sample.runtime [Sample.blank_gcode] [] in
  let z := Sample.blank_gcode_zip in
  ∃ p, @parse_model_settings_config rt (Sample.print_element Sample.blank_gcode) = Ok [p]
       ∧ plater_id p = 2 ∧ gcode_file p = " "
       ∧ @detect_exported_plate_id rt z (namelist z) ""
         = (warn "Could not confidently detect exported plate from gcode_file; defaulting to plate 1",
            Ok (1, "Metadata/plate_1.gcode")).
Proof.
  eexists. split; [by vm_compute|]. by vm_compute.
Qed.

Lemma convert_detect_raise (fs : FS) (inp : Input) (zin : list entry) (w : log) (e : string) :
  zip_read (input_bytes inp) = Some zin →
  detect_exported_plate_id zin (namelist zin) (flatten_wrapper_prefix (namelist zin)).2
  = (w, Raise e) →
  convert fs inp = (w, Raise e, fs).
Proof.
  intros Hz Hd. unfold convert. rewrite Hz.
  destruct (flatten_wrapper_prefix (namelist zin)) as [ns prefix]. simpl in Hd.
  by rewrite Hd.
Qed.

(** C8.  When the plate listing is missing, is no UTF-8, is no XML or
    holds no plate, [convert] raises and the destination is as it was: no
    file is written and the directory is not created. *)
Theorem convert_without_plate_listing (fs : FS) (inp : Input) (zin : list entry) :
  zip_read (input_bytes inp) = Some zin →
  let ms_name :=
    (flatten_wrapper_prefix (namelist zin)).2 +:+ "Metadata/model_settings.config" in
  z_read zin ms_name = None
  ∨ (∃ d, z_read zin ms_name = Some d ∧ utf8_decode d = None)
  ∨ (∃ d t, z_read zin ms_name = Some d ∧ utf8_decode d = Some t
            ∧ ET_fromstring t = None)
  ∨ (∃ d t, z_read zin ms_name = Some d ∧ utf8_decode d = Some t
            ∧ parse_model_settings_config t = Ok []) →
  ∃ w e, convert fs inp = (w, Raise e, fs).
Proof.
  intros Hz ms_name Hcases.
  assert (∃ w e, detect_exported_plate_id zin (namelist zin)
                   (flatten_wrapper_prefix (namelist zin)).2 = (w, Raise e)) as (w & e & Hd).
  { unfold detect_exported_plate_id, read_text. fold ms_name.
    destruct Hcases as [Hr | [(d & Hr & Hdec) | [(d & t & Hr & Hdec & Hp) | (d & t & Hr & Hdec & Hp)]]];
      rewrite Hr; [by eauto | rewrite Hdec; by eauto | rewrite Hdec | rewrite Hdec].
    - destruct t; [by eauto|]. unfold parse_model_settings_config. rewrite Hp. by eauto.
    - destruct t; [by eauto|]. rewrite Hp. by eauto. }
  exists w, e. by apply (convert_detect_raise fs inp zin).
Qed.

(** C10.  The parsed plate list holds the [<plate>] elements that have a
    [plater_id] metadata with an integer value, in order, and no other;
    when no element has one the list is empty and [convert] raises,
    leaving the destination as it was. *)
Theorem plates_without_plater_id (fs : FS) (inp : Input) (zin : list entry)
    (d : bytes) (t : string) (root : Element) :
  zip_read (input_bytes inp) = Some zin →
  z_read zin ((flatten_wrapper_prefix (namelist zin)).2 +:+ "Metadata/model_settings.config")
  = Some d →
  utf8_decode d = Some t →
  ET_fromstring t = Some root →
  ∃ plates,
    parse_model_settings_config t = Ok plates
    ∧ xml_plate_elem <$> plates = List.filter has_plater_id (findall root "plate")
    ∧ (List.filter has_plater_id (findall root "plate") = [] →
       plates = [] ∧ ∃ w e, convert fs inp = (w, Raise e, fs)).
Proof.
  intros Hz Hr Hdec Hroot.
  exists (List.flat_map parse_plate (findall root "plate")).
  assert (parse_model_settings_config t
          = Ok (List.flat_map parse_plate (findall root "plate"))) as Hp.
  { unfold parse_model_settings_config. by rewrite Hroot. }
  split; [done|]. split; [apply parse_plates_elems|].
  intros Hnone.
  assert (List.flat_map parse_plate (findall root "plate") = []) as Hnil.
  { apply fmap_nil_inv with (f := xml_plate_elem). by rewrite parse_plates_elems. }
  split; [done|].
  apply (convert_without_plate_listing fs inp zin Hz).
  right. right. right. exists d, t. by rewrite Hp, Hnil.
Qed.

End DetectionSpec.

(** C8 at an archive without a plate listing. *)
Lemma convert_without_plate_listing_witness :
  let rt := Sample.runtime [] [(Sample.text "no listing", Sample.no_listing_zip)] in
  ∃ w e, @convert rt Sample.empty_dir Sample.no_listing_file = (w, Raise e, Sample.empty_dir).
Proof.
  intros rt.
  apply (@convert_without_plate_listing rt Sample.empty_dir Sample.no_listing_file
           Sample.no_listing_zip).
  - reflexivity.
  - left. reflexivity.
Defined.

(** C10 at a listing of two plates, one without [plater_id], one whose
    [plater_id] is no integer. *)
Lemma plates_without_plater_id_witness :
  let rt := Sample.runtime [Sample.no_plater_id]
              [(Sample.text "no plater id", Sample.no_plater_id_zip)] in
  @parse_model_settings_config rt (Sample.print_element Sample.no_plater_id) = Ok []
  ∧ ∃ w e, @convert rt Sample.empty_dir Sample.no_plater_id_file
           = (w, Raise e, Sample.empty_dir).
Proof.
  intros rt.
  destruct (@plates_without_plater_id rt Sample.empty_dir Sample.no_plater_id_file
              Sample.no_plater_id_zip
              (Sample.text (Sample.print_element Sample.no_plater_id))
              (Sample.print_element Sample.no_plater_id) Sample.no_plater_id
              eq_refl eq_refl eq_refl eq_refl)
    as (plates & Hparse & _ & Hnone).
  destruct (Hnone eq_refl) as [-> Hraise].
  split; [exact Hparse | exact Hraise].
Defined.

(** C2 (as amended) at the archive of two plates of which plate 2 was
    sliced. *)
Lemma detect_exported_plate_id_witness :
  let rt := Sample.runtime [Sample.two_plates] [] in
  let z := Sample.two_plates_zip in
  @detect_exported_plate_id rt z (namelist z) "" = ([], Ok (2, "Metadata/plate_2.gcode")).
Proof.
  intros rt z.
  pose proof (@detect_exported_plate_id_spec rt z (namelist z) "" []
                (Sample.print_element Sample.two_plates)
                (List.flat_map parse_plate (findall Sample.two_plates "plate"))
                eq_refl eq_refl ltac:(discriminate)) as Hspec.
  destruct Hspec as (p & Hp & _ & ->).
  apply list_elem_of_singleton in Hp as ->. reflexivity.
Defined.

(* ===================================================================== *)
(** ** The container: junk, wrapper prefix, entries                       *)
(* ===================================================================== *)

Section Archive.

Lemma z_read_elem (z : list entry) (n : string) (d : bytes) :
  z_read z n = Some d → (n, d) ∈ z.
Proof.
  induction z as [|[n' d'] z IH]; simpl; [done|].
  destruct (z_read z n) as [d''|].
  - intros [= ->]. right. by apply IH.
  - destruct (decide (n' = n)) as [->|]; [|done]. intros [= ->]. by left.
Qed.

Lemma z_read_name (z : list entry) (n : string) (d : bytes) :
  z_read z n = Some d → n ∈ namelist z.
Proof.
  intros Hr%z_read_elem. apply list_elem_of_In, in_map_iff.
  exists (n, d). split; [done|]. by apply list_elem_of_In.
Qed.

Lemma z_read_is_Some (z : list entry) (n : string) :
  n ∈ namelist z → is_Some (z_read z n).
Proof.
  induction z as [|[n' d'] z IH]; simpl; [by intros ?%elem_of_nil|].
  intros [Hn|Hn]%elem_of_cons.
  - destruct (z_read z n); [done|]. by rewrite decide_True.
  - destruct (IH Hn) as [d ->]. done.
Qed.

Lemma nonjunk_names_elem (names : list string) (n : string) :
  n ∈ nonjunk_names names
  ↔ n ∈ names ∧ is_mac_junk n = false ∧ endswith n "/" = false.
Proof.
  unfold nonjunk_names. rewrite list_elem_of_In, filter_In, <- list_elem_of_In.
  rewrite andb_true_iff, !negb_true_iff. tauto.
Qed.

(** The prefix [flatten_wrapper_prefix] returns is empty, or it ends in a
    slash, the manifest stands under it and every entry that is neither
    junk nor a directory starts with it. *)
Lemma flatten_wrapper_prefix_cases (names : list string) :
  (flatten_wrapper_prefix names).2 = ""
  ∨ (endswith (flatten_wrapper_prefix names).2 "/" = true
     ∧ (flatten_wrapper_prefix names).2 +:+ "[Content_Types].xml" ∈ nonjunk_names names
     ∧ ∀ n, n ∈ nonjunk_names names → startswith n (flatten_wrapper_prefix names).2 = true).
Proof.
  unfold flatten_wrapper_prefix.
  destruct (bool_decide _); [by left|].
  destruct (sort_by _ _) as [|candidate r] eqn:Hs; [by left|].
  destruct (List.forallb _ _) eqn:Hall; [|by left].
  right. cbn [snd].
  apply sort_by_head in Hs as [Hc _].
  apply list_elem_of_In, filter_In in Hc as [Hc He].
  apply endswith_inv in He as [q ->].
  change (q +:+ "/[Content_Types].xml") with (q +:+ "/" +:+ "[Content_Types].xml") in *.
  rewrite <- string_app_assoc in *. rewrite drop_last_app in *.
  split; [apply endswith_app|]. split; [by apply list_elem_of_In|].
  intros n Hn. rewrite forallb_forall in Hall. by apply Hall, list_elem_of_In.
Qed.

Lemma string_drop_add (a b : string) (k : nat) :
  drop (String.length a + k) (a +:+ b) = drop k b.
Proof. induction a as [|c a IH]; simpl; [done | apply IH]. Qed.

(** Whether a text ends in [p] depends on its last characters only. *)
Lemma endswith_app_r (a b p : string) :
  (String.length p ≤ String.length b)%nat → endswith (a +:+ b) p = endswith b p.
Proof.
  intros Hl. unfold endswith. rewrite string_length_app.
  replace (String.length a + String.length b - String.length p)%nat
    with (String.length a + (String.length b - String.length p))%nat by lia.
  rewrite string_drop_add.
  destruct (bool_decide _); rewrite ?andb_true_r, ?andb_false_r; [|done].
  rewrite !(proj2 (Nat.leb_le _ _)); [done | lia | lia].
Qed.

Lemma after_last_slash_app (cur a b : string) :
  after_last_slash cur (a +:+ "/" +:+ b) = after_last_slash "" b.
Proof.
  revert cur. induction a as [|c a IH]; intros cur; simpl; [done|].
  destruct (decide (c = "/"%char)); apply IH.
Qed.

Lemma startswith_app_l (p x k : string) :
  (String.length k ≤ String.length p)%nat → startswith (p +:+ x) k = startswith p k.
Proof.
  revert p. induction k as [|c k IH]; intros p Hl; simpl; [done|].
  destruct p as [|b p]; simpl in *; [lia|].
  destruct (decide (c = b)); [|done]. apply IH. lia.
Qed.

(** A text that ends in a slash and is shorter than [__MACOSX/] is no
    beginning of it. *)
Lemma short_prefix_not_macosx (q x : string) :
  (String.length q < 8)%nat → startswith (q +:+ "/" +:+ x) "__MACOSX/" = false.
Proof.
  intros Hl.
  do 8 (destruct q as [|? q];
        [simpl; repeat (case_decide; [subst|done]); done|]).
  simpl in Hl. lia.
Qed.

(** What stands under the wrapper prefix next to the manifest is junk by
    its prefix only if the manifest is. *)
Lemma startswith_macosx_under_prefix (prefix x y : string) :
  endswith prefix "/" = true →
  startswith (prefix +:+ x) "__MACOSX/" = false →
  startswith (prefix +:+ y) "__MACOSX/" = false.
Proof.
  intros [q ->]%endswith_inv Hx.
  destruct (decide (String.length q < 8)%nat) as [Hl|Hl].
  - rewrite string_app_assoc. by apply short_prefix_not_macosx.
  - rewrite startswith_app_l in Hx |- *; [done | |]; rewrite string_length_app; simpl; lia.
Qed.

End Archive.

(* ===================================================================== *)
(** ** The conversion                                                     *)
(* ===================================================================== *)

Section Conversion.
Context `{Runtime}.

Lemma strip_prefix_app (prefix x : string) : strip_prefix prefix (prefix +:+ x) = x.
Proof.
  unfold strip_prefix. destruct (bool_decide (prefix = "")) eqn:Hp; simpl.
  - by apply bool_decide_eq_true in Hp as ->.
  - by rewrite startswith_app, string_drop_app.
Qed.

Lemma strip_prefix_inv (names : list string) (n x : string) :
  n ∈ nonjunk_names names →
  strip_prefix (flatten_wrapper_prefix names).2 n = x →
  n = (flatten_wrapper_prefix names).2 +:+ x.
Proof.
  intros Hn. unfold strip_prefix.
  destruct (flatten_wrapper_prefix_cases names) as [-> | (_ & _ & Hall)]; [done|].
  destruct (startswith_inv _ _ (Hall n Hn)) as [r Hr].
  destruct (decide ((flatten_wrapper_prefix names).2 = "")) as [Hp|Hp].
  - rewrite Hp. simpl. by intros <-.
  - rewrite (bool_decide_eq_false_2 _ Hp), (Hall n Hn). simpl.
    rewrite Hr at 1. rewrite string_drop_app. by intros <-.
Qed.







(** What a successful detection has read, and where its plate id comes
    from. *)
Lemma detect_Ok_inv (z : list entry) (names : list string) (prefix : string)
    (w : log) (id : Z) (path : string) :
  detect_exported_plate_id z names prefix = (w, Ok (id, path)) →
  ∃ d text root,
    z_read z (prefix +:+ "Metadata/model_settings.config") = Some d
    ∧ utf8_decode d = Some text
    ∧ ET_fromstring text = Some root
    ∧ List.flat_map parse_plate (findall root "plate") ≠ []
    ∧ (id = 1 ∨ ∃ p, p ∈ List.flat_map parse_plate (findall root "plate")
                     ∧ plater_id p = id).
Proof.
  unfold detect_exported_plate_id, read_text, parse_model_settings_config.
  destruct (z_read z _) as [d|] eqn:Hr; [|done].
  destruct (utf8_decode d) as [[|c text]|] eqn:Hdec; [done| |done].
  destruct (ET_fromstring (String c text)) as [root|] eqn:Hroot; [|done].
  destruct (List.flat_map parse_plate (findall root "plate")) as [|p0 ps] eqn:Hplates; [done|].
  intros Hd. exists d, (String c text), root. rewrite Hplates.
  do 4 (split; [done|]).
  rewrite candidates_exported in Hd.
  destruct (sort_by fst _) as [|c' r] eqn:Hs.
  - destruct (List.filter has_gcode_file (p0 :: ps)) as [|q [|q' qs]] eqn:Hf;
      injection Hd as _ <- _; [by left | | by left].
    right. exists q. split; [|done].
    assert (q ∈ List.filter has_gcode_file (p0 :: ps)) as Hq by (rewrite Hf; by left).
    by apply list_elem_of_In, filter_In in Hq as [Hq%list_elem_of_In _].
  - injection Hd as _ <- _. right.
    apply sort_by_head in Hs as [Hin _].
    apply list_elem_of_fmap in Hin as (q & -> & Hq).
    exists q. split; [|done].
    by apply list_elem_of_In, filter_In in Hq as [Hq%list_elem_of_In _].
Qed.


(** The loop over the names raises nothing but the [ValueError] of
    [int]. *)
Lemma other_plate_asset_cases (prefix : string) (names : list string) :
  (∃ b, other_plate_asset prefix names = Ok b)
  ∨ other_plate_asset prefix names = Raise "ValueError".
Proof.
  induction names as [|n names IH]; simpl; [by eauto|].
  destruct (is_mac_junk n || endswith n "/"); [done|].
  destruct (PLATE_FILE_RX_match _) as [[[[p stem] num_s] ext]|]; [|done].
  destruct (int num_s) as [N|]; [|by right].
  destruct (decide (N ≠ 1)); by eauto.
Qed.




(** The check raises nothing but the [ValueError] of [int], and does not
    raise when [int] reads what the pattern captured. *)
Lemma is_already_single_plate_cases (z : list entry) (names : list string) (prefix : string) :
  ∃ w, (∃ b, is_already_single_plate z names prefix = (w, Ok b))
       ∨ is_already_single_plate z names prefix = (w, Raise "ValueError").
Proof.
  unfold is_already_single_plate.
  destruct (read_text z (prefix +:+ "Metadata/model_settings.config")) as [w [[|c ms]|]];
    [by eauto| |by eauto].
  destruct (parse_model_settings_config _) as [[|only [|p ps]]|]; try by eauto.
  destruct (decide (plater_id only ≠ 1)); [by eauto|].
  destruct (other_plate_asset_cases prefix names) as [[[|] ->] | ->]; [by eauto| |by eauto].
  destruct (read_text z (prefix +:+ "_rels/.rels")) as [w' [[|c' rels]|]]; try by eauto.
  destruct (_ || _); by eauto.
Qed.



(** *** The entries written on the full path *)

Lemma convert_entry_Ok (z : list entry) (prefix : string) (id : Z) (n : string) :
  n ∈ namelist z → ∃ w oe, convert_entry z prefix id n = Ok (w, oe).
Proof.
  intros [d Hd]%z_read_is_Some. unfold convert_entry. rewrite Hd.
  destruct (rename_or_drop_plate_file _ _ _) as [[|] new_name]; simpl; [|by eauto].
  destruct (rewrite_known_file _ _ _) as [w data']. by eauto.
Qed.

(** The loop writes, in order, what each turn writes, and ends without
    an exception when every name is a name of the archive. *)
Lemma write_entries_all (z : list entry) (prefix : string) (id : Z)
    (names : list string) (written : list entry) :
  (∀ n, n ∈ names → n ∈ namelist z) →
  ∃ w, write_entries z prefix id names written
       = (w,
          written ++ List.flat_map
                       (λ n, match convert_entry z prefix id n with
                             | Ok (_, oe) => option_list oe
                             | Raise _ => []
                             end) names,
          None).
Proof.
  revert written. induction names as [|n names IH]; intros written Hall.
  - exists []. simpl. by rewrite (right_id_L [] (++)).
  - destruct (convert_entry_Ok z prefix id n) as (w & oe & Hn); [apply Hall; by left|].
    destruct (IH (written ++ option_list oe)) as [w' Hw']; [intros; apply Hall; by right|].
    exists (w ++ w'). cbn [write_entries List.flat_map]. rewrite Hn, Hw'.
    by rewrite <- (assoc_L (++)).
Qed.

Lemma compute_output_path_fs (fs : FS) (name : string) (id : Z) :
  (compute_output_path fs name id).2 = mkFS true (files fs).
Proof.
  unfold compute_output_path. destruct (base_ext name) as [base ext].
  by destruct (file_exists _ _).
Qed.

(** [convert] on the fast path. *)
Lemma convert_fast (fs : FS) (inp : Input) (zin : list entry)
    (w w1 : log) (id : Z) (path : string) :
  zip_read (input_bytes inp) = Some zin →
  detect_exported_plate_id zin (namelist zin) (flatten_wrapper_prefix (namelist zin)).2
  = (w, Ok (id, path)) →
  is_already_single_plate zin (namelist zin) (flatten_wrapper_prefix (namelist zin)).2
  = (w1, Ok true) →
  ∃ w',
    convert fs inp
    = (w', Ok (compute_output_path fs (input_name inp) id).1,
       mkFS true (<[(compute_output_path fs (input_name inp) id).1
                    := RawBytes (input_bytes inp)]> (files fs))).
Proof.
  intros Hz Hd Hfast. unfold convert. rewrite Hz.
  destruct (flatten_wrapper_prefix (namelist zin)) as [ns prefix]. cbn [snd] in *.
  rewrite Hd. pose proof (compute_output_path_fs fs (input_name inp) id) as Hfs.
  destruct (compute_output_path fs (input_name inp) id) as [out fs1]. cbn [fst snd] in *.
  subst fs1. rewrite Hfast. by eauto.
Qed.

(** [convert] on the full path. *)
Lemma convert_full (fs : FS) (inp : Input) (zin : list entry)
    (w w1 : log) (id : Z) (path : string) :
  zip_read (input_bytes inp) = Some zin →
  detect_exported_plate_id zin (namelist zin) (flatten_wrapper_prefix (namelist zin)).2
  = (w, Ok (id, path)) →
  is_already_single_plate zin (namelist zin) (flatten_wrapper_prefix (namelist zin)).2
  = (w1, Ok false) →
  ∃ w',
    convert fs inp
    = (w', Ok (compute_output_path fs (input_name inp) id).1,
       mkFS true
         (<[(compute_output_path fs (input_name inp) id).1
            := ZipArchive
                 (List.flat_map
                    (λ n, match convert_entry zin (flatten_wrapper_prefix (namelist zin)).2 id n with
                          | Ok (_, oe) => option_list oe
                          | Raise _ => []
                          end)
                    (nonjunk_names (namelist zin)))]> (files fs))).
Proof.
  intros Hz Hd Hslow. unfold convert. rewrite Hz.
  destruct (flatten_wrapper_prefix (namelist zin)) as [ns prefix]. cbn [snd] in *.
  rewrite Hd. pose proof (compute_output_path_fs fs (input_name inp) id) as Hfs.
  destruct (compute_output_path fs (input_name inp) id) as [out fs1]. cbn [fst snd] in *.
  subst fs1. rewrite Hslow.
  destruct (write_entries_all zin prefix id (nonjunk_names (namelist zin)) [])
    as [w3 ->].
  { intros n Hn. by apply nonjunk_names_elem in Hn as [? _]. }
  cbn [app]. by eauto.
Qed.

(** *** The rewritten plate listing *)

Lemma attrib_get_set_eq (a : list (string * string)) (k v : string) :
  attrib_get (attrib_set a k v) k = Some v.
Proof.
  induction a as [|[k' v'] a IH]; simpl.
  - by rewrite decide_True.
  - destruct (decide (k' = k)) as [->|Hk]; simpl.
    + by rewrite decide_True.
    + by rewrite decide_False.
Qed.

Lemma attrib_get_set_ne (a : list (string * string)) (k k' v : string) :
  k ≠ k' → attrib_get (attrib_set a k v) k' = attrib_get a k'.
Proof.
  intros Hne. induction a as [|[k0 v0] a IH]; simpl.
  - by rewrite decide_False.
  - destruct (decide (k0 = k)) as [->|Hk]; simpl.
    + by rewrite !decide_False.
    + destruct (decide (k0 = k')); [done | apply IH].
Qed.




Lemma findall_map_children (t : string) (f : Element → Element) (e : Element) :
  (∀ c, tag (f c) = tag c) →
  findall (map_children t f e) t = List.map f (findall e t).
Proof.
  intros Htag. unfold findall, map_children. cbn [children].
  induction (children e) as [|c cs IH]; [done|]. cbn [List.map List.filter].
  destruct (bool_decide (tag c = t)) eqn:Hc.
  - rewrite Htag, Hc. cbn [List.map]. by rewrite IH.
  - by rewrite Hc.
Qed.



Lemma keep_only_findall (root keep_elem : Element) :
  tag keep_elem = "plate" → findall (keep_only root keep_elem) "plate" = [keep_elem].
Proof.
  intros Ht. unfold findall, keep_only. cbn [children].
  rewrite List.filter_app. cbn [List.filter]. rewrite Ht.
  rewrite bool_decide_eq_true_2 by done.
  replace (List.filter _ (List.filter _ (children root))) with (@nil Element); [done|].
  induction (children root) as [|c cs IH]; [done|]. cbn [List.filter].
  destruct (bool_decide (tag c = "plate")) eqn:Hc; cbn [negb List.filter]; [done|].
  by rewrite Hc.
Qed.





(** *** The fast path *)

Lemma compute_output_path_free (fs : FS) (name : string) (id : Z) :
  files fs !! (compute_output_path fs name id).1 = None.
Proof.
  unfold compute_output_path. destruct (base_ext name) as [base ext].
  destruct (file_exists _ (candidate_name base ext id)) eqn:Hex; cbn [fst].
  - destruct (first_free_spec (mkFS true (files fs)) base ext id) as (k & -> & _ & Hk).
    apply bool_decide_eq_false in Hk. by apply eq_None_not_Some.
  - apply bool_decide_eq_false in Hex. by apply eq_None_not_Some.
Qed.


(** *** The plate listing of the output *)


End Conversion.

(* ===================================================================== *)
(** ** Plate numbers in a text                                            *)
(* ===================================================================== *)

Section PlateNumbers.

Lemma pretty_N_go_digits (x : N) (s : string) :
  Str.forallb isdigit s = true → Str.forallb isdigit (pretty_N_go x s) = true.
Proof.
  revert s. induction (N.lt_wf_0 x) as [x _ IH]; intros s Hs.
  destruct (decide (x = 0)%N) as [->|Hx]; [by rewrite pretty_N_go_0|].
  rewrite pretty_N_go_step by lia. apply IH.
  - apply N.div_lt; lia.
  - simpl. rewrite Hs, andb_true_r. unfold pretty_N_char. by repeat case_match.
Qed.

Lemma pretty_N_go_length (x : N) (s : string) :
  (String.length s ≤ String.length (pretty_N_go x s))%nat.
Proof.
  revert s. induction (N.lt_wf_0 x) as [x _ IH]; intros s.
  destruct (decide (x = 0)%N) as [->|Hx]; [by rewrite pretty_N_go_0|].
  rewrite pretty_N_go_step by lia.
  etrans; [|apply IH; apply N.div_lt; lia]. simpl. lia.
Qed.

(** [str] of a positive number is a non-empty run of digits. *)
Lemma str_digits (n : Z) :
  0 < n → Str.forallb isdigit (str n) = true ∧ str n ≠ "".
Proof.
  destruct n as [|p|p]; [lia | | lia]. intros _.
  unfold str, pretty, pretty_Z, pretty, pretty_positive, pretty, pretty_N.
  rewrite decide_False by done. split.
  - by apply pretty_N_go_digits.
  - rewrite pretty_N_go_step by lia.
    intros E. pose proof (pretty_N_go_length (N.pos p `div` 10)
                            (String (pretty_N_char (N.pos p `mod` 10)) "")) as Hl.
    rewrite E in Hl. simpl in Hl. lia.
Qed.





End PlateNumbers.

(* ===================================================================== *)
(** ** The conversion on the sample archives                              *)
(* ===================================================================== *)




(** C5, at an archive whose cover thumbnails are those of plate 4: the
    fast-path check answers [True]. *)
Lemma fast_path_check_misses_plate_4 :
  let rt := Sample.runtime [Sample.one_plate] [] in
  @is_already_single_plate rt Sample.one_plate_rels_4_zip
    (namelist Sample.one_plate_rels_4_zip) "" = ([], Ok true)
  ∧ @read_text rt Sample.one_plate_rels_4_zip "_rels/.rels" = ([], Some Sample.rels_plate_4)
  ∧ contains Sample.rels_plate_4 "/Metadata/plate_4.png" = true.
Proof. by vm_compute. Qed.

(** C6, at an archive of one plate with the entries macOS adds: the
    output is the bytes of the input, with its junk entries. *)
Lemma fast_path_keeps_junk :
  let rt := Sample.runtime [Sample.one_plate]
              [(Sample.text "one plate, junk", Sample.one_plate_junk_zip)] in
  let r := @convert rt Sample.empty_dir Sample.one_plate_junk_file in
  r.1.2 = Ok "mac_plate1.gcode.3mf"
  ∧ files r.2 !! "mac_plate1.gcode.3mf"
    = Some (RawBytes (input_bytes Sample.one_plate_junk_file))
  ∧ (namelist <$> @archive_of rt (RawBytes (input_bytes Sample.one_plate_junk_file)))
    = Some (namelist Sample.one_plate_junk_zip)
  ∧ List.filter is_mac_junk (namelist Sample.one_plate_junk_zip)
    = [".DS_Store"; "__MACOSX/._plate_1.png"].
Proof. by vm_compute. Qed.

(** C7, at an archive of one plate zipped with its folder [X]: the
    output is the bytes of the input, every entry under [X/]. *)
Lemma fast_path_keeps_wrapper :
  let rt := Sample.runtime [Sample.one_plate]
              [(Sample.text "one plate, wrapped", Sample.one_plate_wrapped_zip)] in
  let r := @convert rt Sample.empty_dir Sample.one_plate_wrapped_file in
  (flatten_wrapper_prefix (namelist Sample.one_plate_wrapped_zip)).2 = "X/"
  ∧ r.1.2 = Ok "wrapped_plate1.gcode.3mf"
  ∧ files r.2 !! "wrapped_plate1.gcode.3mf"
    = Some (RawBytes (input_bytes Sample.one_plate_wrapped_file))
  ∧ (namelist <$> @archive_of rt (RawBytes (input_bytes Sample.one_plate_wrapped_file)))
    = Some (namelist Sample.one_plate_wrapped_zip)
  ∧ List.forallb (λ n, startswith n "X/") (namelist Sample.one_plate_wrapped_zip) = true.
Proof. by vm_compute. Qed.

(* ===================================================================== *)
(** ** What [convert] does to the destination                             *)
(* ===================================================================== *)

Section Outcome.
Context `{Runtime}.

(** The ways [convert] ends.  It raises before anything is done at the
    destination; or it raises the [ValueError] of [is_already_single_plate]
    when the directory is made and no file written; or it returns the
    name [compute_output_path] chose and has written that one file, a copy
    of the input on the fast path and a new container on the full path. *)
Lemma convert_cases (fs : FS) (inp : Input) (w : log) (r : result string) (fs' : FS) :
  convert fs inp = (w, r, fs') →
  (∃ e, r = Raise e
        ∧ (fs' = fs
           ∨ e = "ValueError" ∧ fs' = mkFS true (files fs)
             ∧ ∃ zin w1,
                 zip_read (input_bytes inp) = Some zin
                 ∧ is_already_single_plate zin (namelist zin)
                     (flatten_wrapper_prefix (namelist zin)).2
                   = (w1, Raise "ValueError")))
  ∨ ∃ zin w0 id path w1 b,
      zip_read (input_bytes inp) = Some zin
      ∧ detect_exported_plate_id zin (namelist zin) (flatten_wrapper_prefix (namelist zin)).2
        = (w0, Ok (id, path))
      ∧ is_already_single_plate zin (namelist zin) (flatten_wrapper_prefix (namelist zin)).2
        = (w1, Ok b)
      ∧ r = Ok (compute_output_path fs (input_name inp) id).1
      ∧ fs' = mkFS true
                (<[(compute_output_path fs (input_name inp) id).1
                   := if b then RawBytes (input_bytes inp)
                      else ZipArchive
                             (List.flat_map
                                (λ n, match convert_entry zin
                                              (flatten_wrapper_prefix (namelist zin)).2 id n with
                                      | Ok (_, oe) => option_list oe
                                      | Raise _ => []
                                      end)
                                (nonjunk_names (namelist zin)))]> (files fs)).
Proof.
  intros Hc. destruct (zip_read (input_bytes inp)) as [zin|] eqn:Hz.
  - destruct (detect_exported_plate_id zin (namelist zin)
                (flatten_wrapper_prefix (namelist zin)).2) as [w0 [[id path]|e]] eqn:Hd.
    + destruct (is_already_single_plate_cases zin (namelist zin)
                  (flatten_wrapper_prefix (namelist zin)).2) as (w1 & [[b Hb] | Hb]).
      * right. exists zin, w0, id, path, w1, b. do 3 (split; [done|]).
        destruct b.
        -- destruct (convert_fast fs inp zin w0 w1 id path Hz Hd Hb) as [w' Hc'].
           rewrite Hc' in Hc. by injection Hc as _ <- <-.
        -- destruct (convert_full fs inp zin w0 w1 id path Hz Hd Hb) as [w' Hc'].
           rewrite Hc' in Hc. by injection Hc as _ <- <-.
      * left. exists "ValueError". revert Hc. unfold convert. rewrite Hz.
        destruct (flatten_wrapper_prefix (namelist zin)) as [ns prefix] eqn:Hf.
        cbn [snd] in *.
        rewrite Hd. pose proof (compute_output_path_fs fs (input_name inp) id) as Hfs.
        destruct (compute_output_path fs (input_name inp) id) as [out fs1].
        cbn [fst snd] in *. subst fs1. rewrite Hb. intros [= _ <- <-].
        split; [done|]. right. do 2 (split; [done|]). exists zin, w1.
        by rewrite Hf.
    + left. rewrite (convert_detect_raise fs inp zin w0 e Hz Hd) in Hc.
      injection Hc as _ <- <-. exists e. split; [done | by left].
  - left. unfold convert in Hc. rewrite Hz in Hc. injection Hc as _ <- <-.
    eexists. split; [done | by left].
Qed.


(** X2.  A conversion that returns has created the directory and written
    exactly one file, under a name no file had; every file that was there
    is left with its content. *)
Theorem convert_writes_one_new_file (fs : FS) (inp : Input) (w : log) (out : string) (fs' : FS) :
  convert fs inp = (w, Ok out, fs') →
  dir_exists fs' = true
  ∧ files fs !! out = None
  ∧ is_Some (files fs' !! out)
  ∧ ∀ n, n ≠ out → files fs' !! n = files fs !! n.
Proof.
  intros Hc. destruct (convert_cases _ _ _ _ _ Hc) as [(e' & ? & _) | Hok]; [done|].
  destruct Hok as (zin & w0 & id & path & w1 & b & _ & _ & _ & [= ->] & ->).
  cbn [dir_exists files]. split; [done|]. split; [apply compute_output_path_free|].
  split; [by rewrite lookup_insert_eq|].
  intros n Hn. by rewrite lookup_insert_ne.
Qed.

End Outcome.


(** X2 at the archive of two plates, into a directory that holds a file
    of the first name tried. *)
Lemma convert_writes_one_new_file_witness :
  let rt := Sample.runtime [Sample.two_plates]
              [(Sample.text "two plates", Sample.two_plates_zip)] in
  let fs := mkFS true {["foo_plate2.gcode.3mf" := RawBytes []]} in
  let fs' := (@convert rt fs Sample.two_plates_file).2 in
  dir_exists fs' = true
  ∧ files fs !! "foo_plate2_1.gcode.3mf" = None
  ∧ is_Some (files fs' !! "foo_plate2_1.gcode.3mf")
  ∧ ∀ n, n ≠ "foo_plate2_1.gcode.3mf" → files fs' !! n = files fs !! n.
Proof.
  intros rt fs fs'.
  apply (@convert_writes_one_new_file rt fs Sample.two_plates_file
           (@convert rt fs Sample.two_plates_file).1.1).
  by vm_compute.
Defined.

(* ===================================================================== *)
(** ** Junk entries and the wrapper folder                                *)
(* ===================================================================== *)

Section Names.

(** What follows the last slash of [s]: all of [s], after what was read
    before, when [s] has no slash. *)
Lemma after_last_slash_cases (cur s : string) :
  (Str.forallb not_slash s = true ∧ after_last_slash cur s = cur +:+ s)
  ∨ ∃ a b, s = a +:+ "/" +:+ b ∧ Str.forallb not_slash b = true
           ∧ after_last_slash cur s = b.
Proof.
  revert cur. induction s as [|c s IH]; intros cur; simpl.
  - left. by rewrite string_app_nil_r.
  - destruct (decide (c = "/"%char)) as [->|Hc].
    + right. destruct (IH "") as [[Hs E]|(a & b & -> & Hb & E)].
      * by exists "", s.
      * by exists (String "/"%char a), b.
    + destruct (IH (cur +:+ String c "")) as [[Hs E]|(a & b & -> & Hb & E)].
      * left. unfold not_slash at 1. rewrite bool_decide_eq_false_2 by done.
        split; [done|]. by rewrite E, string_app_assoc.
      * right. by exists (String c a), b.
Qed.

(** X3.  An entry is junk exactly when its name begins with [__MACOSX/],
    or is [.DS_Store], or ends in [/.DS_Store]. *)
Theorem is_mac_junk_spec (name : string) :
  is_mac_junk name = true
  ↔ startswith name "__MACOSX/" = true ∨ name = ".DS_Store"
    ∨ endswith name "/.DS_Store" = true.
Proof.
  unfold is_mac_junk, MAC_JUNK_PREFIXES, MAC_JUNK_FILES. cbn [List.existsb].
  rewrite orb_false_r.
  destruct (startswith name "__MACOSX/"); [by split; [left|]|].
  case_bool_decide as Hb.
  - split; [intros _; right | done].
    apply list_elem_of_singleton in Hb. unfold basename in Hb.
    destruct (after_last_slash_cases "" name) as [[_ E]|(a & b & -> & _ & E)].
    + left. simpl in E. congruence.
    + right. rewrite E in Hb. subst b. exact (endswith_app a "/.DS_Store").
  - split; [done|]. intros [? | [-> | [a ->]%endswith_inv]]; [done | |];
      exfalso; apply Hb, list_elem_of_singleton; [done|].
    unfold basename.
    change (a +:+ "/.DS_Store") with (a +:+ "/" +:+ ".DS_Store").
    by rewrite after_last_slash_app.
Qed.

(** X4.  [flatten_wrapper_prefix] returns the names as they are, and a
    non-empty prefix [P] exactly when the manifest is no entry at the
    root, [P] ends in a slash, the manifest is an entry under [P] and
    every entry that is neither junk nor a directory starts with [P]. *)
Theorem flatten_wrapper_prefix_spec (names : list string) (P : string) :
  P ≠ "" →
  (flatten_wrapper_prefix names).1 = names
  ∧ ((flatten_wrapper_prefix names).2 = P
     ↔ ("[Content_Types].xml" ∉ nonjunk_names names)
       ∧ endswith P "/" = true
       ∧ P +:+ "[Content_Types].xml" ∈ nonjunk_names names
       ∧ ∀ n, n ∈ nonjunk_names names → startswith n P = true).
Proof.
  intros HP. split.
  { unfold flatten_wrapper_prefix. destruct (bool_decide _); [done|].
    destruct (sort_by _ _); [done|]. by destruct (List.forallb _ _). }
  split.
  - intros E.
    destruct (flatten_wrapper_prefix_cases names) as [E0 | (He & Hm & Hall)]; [congruence|].
    rewrite E in He, Hm, Hall. split; [|done].
    intros Hroot. unfold flatten_wrapper_prefix in E.
    rewrite bool_decide_eq_true_2 in E by done. by cbn in E.
  - intros (Hroot & He & Hm & Hall). unfold flatten_wrapper_prefix.
    rewrite bool_decide_eq_false_2 by done.
    assert (P +:+ "[Content_Types].xml"
            ∈ List.filter (λ n, endswith n "/[Content_Types].xml") (nonjunk_names names))
      as Hcand.
    { apply list_elem_of_In, filter_In. split; [by apply list_elem_of_In|].
      apply endswith_inv in He as [q ->]. rewrite string_app_assoc.
      exact (endswith_app q "/[Content_Types].xml"). }
    destruct (sort_by _ _) as [|c0 r] eqn:Hs.
    { apply sort_by_nil in Hs. rewrite Hs in Hcand. by apply elem_of_nil in Hcand. }
    apply sort_by_head in Hs as [Hc0 Hmin]. specialize (Hmin _ Hcand).
    apply list_elem_of_In, filter_In in Hc0 as [Hc0%list_elem_of_In Hc0e].
    destruct (startswith_inv _ _ (Hall _ Hc0)) as [x ->].
    assert (x = "[Content_Types].xml") as ->.
    { apply endswith_inv in Hc0e as [r' Hr'].
      assert (basename (P +:+ x) = "[Content_Types].xml") as Hb.
      { rewrite Hr'. unfold basename.
        change (r' +:+ "/[Content_Types].xml") with (r' +:+ "/" +:+ "[Content_Types].xml").
        by rewrite after_last_slash_app. }
      apply endswith_inv in He as [q ->].
      unfold basename in Hb. rewrite string_app_assoc in Hb.
      rewrite (after_last_slash_app "" q x) in Hb.
      destruct (after_last_slash_cases "" x) as [[_ E]|(a & b & -> & _ & E)].
      - simpl in E. congruence.
      - rewrite E in Hb. subst b.
        rewrite !string_length_app in Hmin. simpl in Hmin. lia. }
    rewrite drop_last_app.
    destruct (List.forallb _ _) eqn:Hf; [done|].
    apply not_true_iff_false in Hf. exfalso. apply Hf, forallb_forall.
    intros n Hn%list_elem_of_In. by apply Hall.
Qed.

End Names.

(** X4 at a container whose entries stand in the folder [W]. *)
Lemma flatten_wrapper_prefix_spec_witness :
  let names := ["W/[Content_Types].xml"; "W/Metadata/model_settings.config";
                "__MACOSX/W/._x"; "W/"] in
  (flatten_wrapper_prefix names).1 = names
  ∧ ((flatten_wrapper_prefix names).2 = "W/"
     ↔ ("[Content_Types].xml" ∉ nonjunk_names names)
       ∧ endswith "W/" "/" = true
       ∧ "W/" +:+ "[Content_Types].xml" ∈ nonjunk_names names
       ∧ ∀ n, n ∈ nonjunk_names names → startswith n "W/" = true).
Proof.
  intros names. apply (flatten_wrapper_prefix_spec names "W/"). done.
Defined.

(* ===================================================================== *)
(** ** Plate numbers in file names                                        *)
(* ===================================================================== *)

Section Renumbering.

Lemma pretty_N_char_digit (d : N) :
  (d < 10)%N →
  isdigit (pretty_N_char d) = true ∧ digit_value (pretty_N_char d) = Z.of_N d.
Proof.
  intros Hd.
  assert (d = 0 ∨ d = 1 ∨ d = 2 ∨ d = 3 ∨ d = 4 ∨ d = 5 ∨ d = 6 ∨ d = 7 ∨ d = 8 ∨ d = 9)%N
    as Hcases by lia.
  destruct_or!; subst d; done.
Qed.

(** Reading the digits [pretty_N_go] writes in front of [s] gives the
    number written. *)
Lemma int_digits_pretty_N_go (x : N) (s : string) :
  (0 < x)%N →
  int_digits 0 false (pretty_N_go x s) = int_digits (Z.of_N x) true s.
Proof.
  revert s. induction (N.lt_wf_0 x) as [x _ IH]; intros s Hx.
  rewrite pretty_N_go_step by done.
  destruct (pretty_N_char_digit (x `mod` 10)) as [Hd Hv]; [by apply N.mod_lt|].
  destruct (decide (x `div` 10 = 0)%N) as [E|E].
  - rewrite E, pretty_N_go_0. cbn [int_digits]. rewrite Hd, Hv. f_equal.
    pose proof (N.div_mod x 10). lia.
  - rewrite IH; [|apply N.div_lt; lia|by apply N.neq_0_lt_0]. cbn [int_digits]. rewrite Hd, Hv. f_equal.
    pose proof (N.div_mod x 10). lia.
Qed.

(** [int(str(n))] is [n], for a number [int] reads the digits of. *)
Lemma int_str (n : Z) :
  0 ≤ n → (String.length (str n) ≤ int_max_str_digits)%nat → int (str n) = Some n.
Proof.
  intros Hn Hlen. destruct n as [|p|p]; [done| |lia].
  destruct (str_digits (Z.pos p)) as [Hd Hne]; [lia|].
  assert (int_literal (str (Z.pos p)) = Some (Z.pos p)) as Hlit.
  { unfold int_literal. rewrite (count_digits_run _ Hd).
    rewrite (proj2 (Nat.ltb_ge _ _)) by lia.
    unfold str, pretty, pretty_Z, pretty, pretty_positive, pretty, pretty_N.
    rewrite decide_False by done. by rewrite int_digits_pretty_N_go. }
  unfold int. rewrite (int_strip_digits _ Hd).
  destruct (str (Z.pos p)) as [|c r]; [done|].
  simpl in Hd. apply andb_true_iff in Hd as [Hc _].
  destruct (isdigit_not_sign c Hc) as (? & ? & _).
  by rewrite !decide_False by done.
Qed.

Lemma str_nonneg_digits (n : Z) :
  0 ≤ n → Str.forallb isdigit (str n) = true ∧ str n ≠ "".
Proof.
  intros Hn. destruct (decide (n = 0)) as [->|]; [done|]. apply str_digits. lia.
Qed.

Lemma string_forallb_app (f : ascii → bool) (a b : string) :
  Str.forallb f (a +:+ b) = Str.forallb f a && Str.forallb f b.
Proof. induction a as [|c a IH]; simpl; [done|]. by rewrite IH, andb_assoc. Qed.

Lemma digits_not_slash (n : string) :
  Str.forallb isdigit n = true → Str.forallb not_slash n = true.
Proof. apply string_forallb_impl. intros c Hc. by destruct (decide (c = "/"%char)) as [->|]; [|unfold not_slash; rewrite bool_decide_eq_false_2]. Qed.

(** No number and extension are read where the text does not begin with a
    digit. *)
Lemma num_ext_nondigit (s : string) :
  match s with String c _ => isdigit c = false | EmptyString => True end →
  num_ext s = None.
Proof.
  destruct s as [|c s]; [done|]. intros Hc. unfold num_ext. simpl. by rewrite Hc.
Qed.

(** Whether a number and an extension are read before an underscore does
    not depend on what follows it, slashes apart. *)
Lemma num_ext_tail (t y1 y2 : string) :
  Str.forallb not_slash y1 = Str.forallb not_slash y2 →
  num_ext (t +:+ String "_"%char y1) = None →
  num_ext (t +:+ String "_"%char y2) = None.
Proof.
  intros Hy. destruct (span isdigit t) as [d r] eqn:E.
  apply string_span_inv in E as (-> & Hd & Hr).
  destruct r as [|c r].
  - rewrite string_app_nil_r. unfold num_ext. intros _.
    rewrite (string_span_app isdigit d "_"%char y2 Hd eq_refl).
    rewrite (bool_decide_eq_false_2 ("_"%char = "."%char)) by done.
    by rewrite andb_false_r.
  - rewrite !string_app_assoc. cbn [String.append]. unfold num_ext.
    rewrite (string_span_app isdigit d c (r +:+ String "_"%char y1) Hd Hr).
    rewrite (string_span_app isdigit d c (r +:+ String "_"%char y2) Hd Hr).
    rewrite !string_forallb_app. cbn [Str.forallb]. rewrite Hy.
    rewrite !(bool_decide_eq_true_2 (r +:+ _ ≠ "")) by (by destruct r).
    by destruct (_ && _).
Qed.

(** The number of a matching name can be replaced: the name with another
    run of digits is read with the same stem and extension. *)
Lemma stem_num_ext_renumber (s acc stem num ext n2 : string) :
  stem_num_ext acc s = Some (stem, num, ext) →
  Str.forallb isdigit n2 = true → n2 ≠ "" →
  ∃ t, s = t +:+ "_" +:+ num +:+ ext ∧ stem = acc +:+ t
       ∧ stem_num_ext acc (t +:+ "_" +:+ n2 +:+ ext) = Some (stem, n2, ext).
Proof.
  intros Hm Hd2 Hne2. revert acc Hm. induction s as [|c s IH]; intros acc; simpl; [done|].
  destruct (match acc with EmptyString => None | String _ _ => _ end)
    as [[n e]|] eqn:Hhere.
  - intros [= <- <- <-]. destruct acc as [|a acc]; [done|].
    destruct (decide (c = "_"%char)) as [->|]; [|done].
    pose proof (num_ext_inv _ _ _ Hhere) as (-> & _ & _ & e' & -> & He' & Hs').
    exists "". split; [done|]. split; [by rewrite string_app_nil_r|].
    cbn [String.append stem_num_ext]. rewrite decide_True by done.
    by rewrite (num_ext_complete n2 e').
  - destruct (not_newline c) eqn:Hc; [|done]. intros Hrec.
    pose proof (stem_num_ext_inv _ _ _ _ _ Hrec) as (_ & _ & _ & _ & _ & Hx).
    apply num_ext_inv in Hx as (_ & _ & Hd & _).
    destruct (IH _ Hrec) as (t & -> & -> & Hnew).
    exists (String c t). split; [done|]. split; [by rewrite string_app_assoc|].
    cbn [String.append stem_num_ext].
    assert (match acc with
            | EmptyString => None
            | String _ _ =>
                if decide (c = "_"%char) then num_ext (t +:+ String "_"%char (n2 +:+ ext))
                else None
            end = None) as ->.
    { destruct acc; [done|]. destruct (decide (c = "_"%char)); [|done].
      apply (num_ext_tail t (num +:+ ext) (n2 +:+ ext)); [|done].
      by rewrite !string_forallb_app, (digits_not_slash _ Hd), (digits_not_slash _ Hd2). }
    by rewrite Hc.
Qed.

(** A name whose stem has no underscore before a digit is read with that
    stem. *)
Lemma stem_num_ext_stem (t acc num ext : string) :
  acc +:+ t ≠ "" → Str.forallb not_newline t = true → no_underscore_digit t = true →
  num_ext (num +:+ ext) = Some (num, ext) →
  stem_num_ext acc (t +:+ "_" +:+ num +:+ ext) = Some (acc +:+ t, num, ext).
Proof.
  intros Hne Hnl Hu Hx. revert acc Hne. induction t as [|c t IH]; intros acc Hne.
  - rewrite string_app_nil_r in *. destruct acc as [|a acc]; [done|].
    cbn [String.append stem_num_ext]. rewrite decide_True by done. by rewrite Hx.
  - cbn [Str.forallb no_underscore_digit] in Hnl, Hu.
    apply andb_true_iff in Hnl as [Hc Hnl]. apply andb_true_iff in Hu as [Hcu Hu].
    cbn [String.append stem_num_ext].
    assert (match acc with
            | EmptyString => None
            | String _ _ =>
                if decide (c = "_"%char) then num_ext (t +:+ String "_"%char (num +:+ ext))
                else None
            end = None) as ->.
    { destruct acc; [done|]. destruct (decide (c = "_"%char)) as [->|]; [|done].
      apply num_ext_nondigit. destruct t as [|d t]; [done|].
      simpl in Hcu. by apply negb_true_iff in Hcu. }
    rewrite Hc, (IH Hnl Hu); [by rewrite string_app_assoc|].
    by destruct acc.
Qed.

Lemma plate_file_match_number (stem num e : string) :
  stem ≠ "" → Str.forallb not_newline stem = true → no_underscore_digit stem = true →
  num ≠ "" → Str.forallb isdigit num = true →
  e ≠ "" → Str.forallb not_slash e = true →
  PLATE_FILE_RX_match ("Metadata/" +:+ stem +:+ "_" +:+ num +:+ "." +:+ e)
  = Some ("Metadata/", stem, num, "." +:+ e).
Proof.
  intros Hne Hnl Hu Hn Hd He Hs. unfold PLATE_FILE_RX_match.
  rewrite startswith_app, string_drop_app.
  rewrite (stem_num_ext_stem stem "" num ("." +:+ e)); [done..|].
  by apply num_ext_complete.
Qed.

(** X5.  An asset [Metadata/<stem>_<k>.<e>], where no underscore of the
    stem stands before a digit and [k] has no more digits than [int]
    reads, is dropped when [k] is not the plate to keep, and is otherwise
    renamed to carry the new number. *)
Theorem rename_plate_file_by_number (stem e : string) (k keep_plate_id new_plate_id : Z) :
  stem ≠ "" → Str.forallb not_newline stem = true → no_underscore_digit stem = true →
  0 ≤ k → (String.length (str k) ≤ int_max_str_digits)%nat →
  e ≠ "" → Str.forallb not_slash e = true →
  rename_or_drop_plate_file ("Metadata/" +:+ stem +:+ "_" +:+ str k +:+ "." +:+ e)
    keep_plate_id new_plate_id
  = if decide (k = keep_plate_id)
    then (true, "Metadata/" +:+ stem +:+ "_" +:+ str new_plate_id +:+ "." +:+ e)
    else (false, "Metadata/" +:+ stem +:+ "_" +:+ str k +:+ "." +:+ e).
Proof.
  intros Hne Hnl Hu Hk Hlen He Hs. destruct (str_nonneg_digits k Hk) as [Hd Hn].
  unfold rename_or_drop_plate_file.
  rewrite plate_file_match_number by done. rewrite int_str by done.
  destruct (decide (k = keep_plate_id)) as [->|Hne'].
  - by rewrite decide_False by (by intros ?).
  - by rewrite decide_True.
Qed.

(** A name the pattern matches is matched, with another number in the
    place of its own, with the same stem and extension. *)
Lemma renumbered_match (name p stem num0 ext : string) (new_plate_id : Z) :
  0 ≤ new_plate_id →
  PLATE_FILE_RX_match name = Some (p, stem, num0, ext) →
  PLATE_FILE_RX_match (p +:+ stem +:+ "_" +:+ str new_plate_id +:+ ext)
  = Some (p, stem, str new_plate_id, ext).
Proof.
  intros Hnew Hm. destruct (str_nonneg_digits new_plate_id Hnew) as [Hd Hn].
  unfold PLATE_FILE_RX_match in Hm |- *.
  destruct (startswith name "Metadata/") eqn:Hp; [|done].
  apply startswith_inv in Hp as [r ->]. rewrite string_drop_app in Hm.
  destruct (stem_num_ext "" r) as [[[s n] e]|] eqn:Hr; [|done].
  injection Hm as <- -> -> ->.
  rewrite startswith_app, string_drop_app.
  destruct (stem_num_ext_renumber _ _ _ _ _ (str new_plate_id) Hr Hd Hn)
    as (t & _ & Hst & Hnew').
  simpl in Hst. subst t. by rewrite Hnew'.
Qed.

(** X6.  A name that is kept is a name the pattern does not match, left
    as it was; or a name the pattern matches with a number of more digits
    than [int] reads, left as it was; or it is read with the stem and the
    extension it had and the new number.  Renaming it again for the new
    number changes nothing. *)
Theorem renamed_plate_file_number (name new_name : string) (keep_plate_id new_plate_id : Z) :
  0 ≤ new_plate_id →
  (String.length (str new_plate_id) ≤ int_max_str_digits)%nat →
  rename_or_drop_plate_file name keep_plate_id new_plate_id = (true, new_name) →
  match PLATE_FILE_RX_match new_name with
  | None => new_name = name
  | Some (p, stem, num_s, ext) =>
      (num_s = str new_plate_id
       ∧ ∃ num0, PLATE_FILE_RX_match name = Some (p, stem, num0, ext)
                 ∧ int num0 = Some keep_plate_id)
      ∨ (new_name = name ∧ int num_s = None
         ∧ (int_max_str_digits < String.length num_s)%nat)
  end
  ∧ rename_or_drop_plate_file new_name new_plate_id new_plate_id = (true, new_name).
Proof.
  intros Hnew Hlen. unfold rename_or_drop_plate_file at 1.
  destruct (PLATE_FILE_RX_match name) as [[[[p stem] num0] ext]|] eqn:Hm.
  - pose proof (PLATE_FILE_RX_match_inv _ _ _ _ _ Hm) as (_ & _ & _ & _ & Hne0 & Hd0 & _).
    destruct (int num0) as [N|] eqn:HN.
    + destruct (decide (N ≠ keep_plate_id)) as [|HNk]; [done|].
      apply dec_stable in HNk. subst N. intros [= <-].
      pose proof (renumbered_match _ _ _ _ _ _ Hnew Hm) as Hm'.
      cbn [String.append] in Hm' |- *.
      rewrite Hm'. split; [left; by eauto|].
      unfold rename_or_drop_plate_file. rewrite Hm', int_str by done.
      by rewrite decide_False by (by intros ?).
    + intros [= <-]. rewrite Hm. split.
      * right. do 2 (split; [done|]).
        destruct (decide (String.length num0 ≤ int_max_str_digits)%nat) as [Hle|]; [|lia].
        destruct (int_digits_ok num0 Hd0 Hne0 Hle) as (N & HN' & _). congruence.
      * unfold rename_or_drop_plate_file. by rewrite Hm, HN.
  - intros [= <-]. rewrite Hm. split; [done|].
    unfold rename_or_drop_plate_file. by rewrite Hm.
Qed.

(** *** What [int] returns can be written and read again *)

Lemma digit_value_le (c : ascii) : isdigit c = true → digit_value c ≤ 9.
Proof.
  unfold isdigit, digit_value. intros [_ H2%Nat.leb_le]%andb_true_iff. lia.
Qed.

(** A literal of [d] digits is read as a number below [10 ^ d]. *)
Lemma int_digits_bound (r : string) (acc : Z) (prev : bool) (m : Z) :
  0 ≤ acc → int_digits acc prev r = Some m →
  0 ≤ m < (acc + 1) * 10 ^ Z.of_nat (count_digits r).
Proof.
  revert acc prev. induction r as [|c r IH]; intros acc prev Hacc; simpl.
  - destruct prev; [|done]. intros [= <-]. rewrite Z.pow_0_r. lia.
  - destruct (isdigit c) eqn:Hc.
    + pose proof (digit_value_nonneg c Hc). pose proof (digit_value_le c Hc).
      intros Hm. apply IH in Hm; [|lia].
      rewrite Nat2Z.inj_succ, Z.pow_succ_r by lia.
      pose proof (Z.pow_nonneg 10 (Z.of_nat (count_digits r)) ltac:(lia)). nia.
    + destruct (decide (c = "_"%char)); [|done]. destruct prev; [|done]. by apply IH.
Qed.

Lemma pretty_N_go_length_le (d : nat) (x : N) (s : string) :
  Z.of_N x < 10 ^ Z.of_nat d →
  (String.length (pretty_N_go x s) ≤ d + String.length s)%nat.
Proof.
  revert x s. induction d as [|d IH]; intros x s Hx.
  - rewrite Z.pow_0_r in Hx. assert (x = 0%N) as -> by lia. rewrite pretty_N_go_0. simpl. lia.
  - destruct (decide (x = 0)%N) as [->|Hx0]; [rewrite pretty_N_go_0; lia|].
    rewrite pretty_N_go_step by lia. etrans; [apply IH|simpl; lia].
    rewrite N2Z.inj_div. change (Z.of_N 10) with 10.
    rewrite Nat2Z.inj_succ, Z.pow_succ_r in Hx by lia.
    apply Z.div_lt_upper_bound; lia.
Qed.

(** A number below [10 ^ d] is written with [d] digits at most, one for
    zero. *)
Lemma str_length_le (n : Z) (d : nat) :
  0 ≤ n < 10 ^ Z.of_nat d → (String.length (str n) ≤ Nat.max 1 d)%nat.
Proof.
  intros Hn. destruct n as [|p|p]; [change (str 0) with "0"; simpl; lia| |lia].
  unfold str, pretty, pretty_Z, pretty, pretty_positive, pretty, pretty_N.
  rewrite decide_False by done.
  pose proof (pretty_N_go_length_le d (N.pos p) "" ltac:(simpl; lia)) as Hl.
  simpl in Hl. lia.
Qed.

Lemma int_max_str_digits_pos : (1 ≤ int_max_str_digits)%nat.
Proof. unfold int_max_str_digits. apply le_n_S, Nat.le_0_l. Qed.

Lemma int_literal_readable (r : string) (m : Z) :
  int_literal r = Some m →
  0 ≤ m ∧ (String.length (str m) ≤ int_max_str_digits)%nat.
Proof.
  unfold int_literal.
  destruct (Nat.ltb_spec int_max_str_digits (count_digits r)) as [|Hle]; [done|].
  intros Hm. apply int_digits_bound in Hm; [|lia]. split; [lia|].
  pose proof (str_length_le m (count_digits r) ltac:(lia)).
  pose proof int_max_str_digits_pos. lia.
Qed.

(** A number [int] returned, if it is not negative, is read again from
    what [str] writes. *)
Lemma int_readable (v : string) (n : Z) :
  int v = Some n → 0 ≤ n → int (str n) = Some n.
Proof.
  unfold int at 1.
  destruct (rstrip_by int_isspace (lstrip_by int_isspace v)) as [|c r]; [done|].
  destruct (decide (c = "+"%char)).
  { intros [? ?]%int_literal_readable _. by apply int_str. }
  destruct (decide (c = "-"%char)).
  { destruct (int_literal r) as [m|] eqn:Hm; simpl; [|done].
    apply int_literal_readable in Hm as [? _]. intros [= <-] ?.
    by replace (- m) with 0 by lia. }
  intros [? ?]%int_literal_readable _. by apply int_str.
Qed.

End Renumbering.

(** X5 at a thumbnail of plate 12. *)
Lemma rename_plate_file_by_number_witness :
  rename_or_drop_plate_file ("Metadata/" +:+ "plate_no_light" +:+ "_" +:+ str 12 +:+ "." +:+ "png")
    12 1
  = if decide (12 = 12)
    then (true, "Metadata/" +:+ "plate_no_light" +:+ "_" +:+ str 1 +:+ "." +:+ "png")
    else (false, "Metadata/" +:+ "plate_no_light" +:+ "_" +:+ str 12 +:+ "." +:+ "png").
Proof.
  apply (rename_plate_file_by_number "plate_no_light" "png" 12 12 1);
    first [done | lia | by apply Nat.leb_le].
Defined.

(** X6 at the G-code of plate 2. *)
Lemma renamed_plate_file_number_witness :
  match PLATE_FILE_RX_match "Metadata/plate_1.gcode" with
  | None => "Metadata/plate_1.gcode" = "Metadata/plate_2.gcode"
  | Some (p, stem, num_s, ext) =>
      (num_s = str 1
       ∧ ∃ num0, PLATE_FILE_RX_match "Metadata/plate_2.gcode" = Some (p, stem, num0, ext)
                 ∧ int num0 = Some 2)
      ∨ ("Metadata/plate_1.gcode" = "Metadata/plate_2.gcode" ∧ int num_s = None
         ∧ (int_max_str_digits < String.length num_s)%nat)
  end
  ∧ rename_or_drop_plate_file "Metadata/plate_1.gcode" 1 1 = (true, "Metadata/plate_1.gcode").
Proof.
  apply (renamed_plate_file_number "Metadata/plate_2.gcode" "Metadata/plate_1.gcode" 2 1);
    [lia | by apply Nat.leb_le | done].
Defined.

(* ===================================================================== *)
(** ** The container written on the full path                             *)
(* ===================================================================== *)

Section FullPath.
Context `{Runtime}.

(** The documents [convert] rewrites. *)
Lemma rewrite_known_file_other (n : string) (data : bytes) (id : Z) :
  n ∉ ["_rels/.rels"; "Metadata/_rels/model_settings.config.rels";
       "Metadata/model_settings.config"; "Metadata/slice_info.config";
       "3D/3dmodel.model"] →
  rewrite_known_file n data id = ([], data).
Proof.
  intros Hn. unfold rewrite_known_file.
  rewrite !decide_False; [done|..]; intros ->; apply Hn; set_solver.
Qed.

Lemma numbered_not_known (a b : string) :
  a +:+ "_1." +:+ b
  ∉ ["_rels/.rels"; "Metadata/_rels/model_settings.config.rels";
     "Metadata/model_settings.config"; "Metadata/slice_info.config";
     "3D/3dmodel.model"].
Proof.
  intros Hin. pose proof (contains_app a "_1." b) as Hc.
  repeat (apply elem_of_cons in Hin as [Hin|Hin]; [by rewrite Hin in Hc|]).
  by apply elem_of_nil in Hin.
Qed.

(** The entries written: one for each entry worked on that is kept, under
    its new name, with the content [rewrite_known_file] gives. *)
Lemma written_elem (zin : list entry) (prefix : string) (id : Z) (names : list string)
    (n' : string) (d' : bytes) :
  (n', d') ∈ List.flat_map
               (λ n, match convert_entry zin prefix id n with
                     | Ok (_, oe) => option_list oe
                     | Raise _ => []
                     end) names
  ↔ ∃ n data, n ∈ names ∧ z_read zin n = Some data
              ∧ rename_or_drop_plate_file (strip_prefix prefix n) id 1 = (true, n')
              ∧ (rewrite_known_file n' data id).2 = d'.
Proof.
  rewrite list_elem_of_In, in_flat_map. split.
  - intros (n & Hn%list_elem_of_In & Hin). unfold convert_entry in Hin.
    destruct (z_read zin n) as [data|] eqn:Hr; [|done].
    destruct (rename_or_drop_plate_file _ _ _) as [[|] nn] eqn:Hrn; simpl in Hin; [|done].
    destruct (rewrite_known_file nn data id) as [w dd] eqn:Hk. simpl in Hin.
    destruct Hin as [[= <- <-]|[]]. exists n, data. by rewrite Hk.
  - intros (n & data & Hn & Hr & Hrn & Hk). exists n. split; [by apply list_elem_of_In|].
    unfold convert_entry. rewrite Hr, Hrn. simpl.
    destruct (rewrite_known_file n' data id) as [w dd]. simpl in *. left. by subst.
Qed.

(** A conversion that wrote a container took the full path. *)
Lemma convert_full_inv (fs : FS) (inp : Input) (w : log) (out : string) (fs' : FS)
    (es : list entry) :
  convert fs inp = (w, Ok out, fs') →
  files fs' !! out = Some (ZipArchive es) →
  ∃ zin w0 id path,
    zip_read (input_bytes inp) = Some zin
    ∧ detect_exported_plate_id zin (namelist zin) (flatten_wrapper_prefix (namelist zin)).2
      = (w0, Ok (id, path))
    ∧ es = List.flat_map
             (λ n, match convert_entry zin (flatten_wrapper_prefix (namelist zin)).2 id n with
                   | Ok (_, oe) => option_list oe
                   | Raise _ => []
                   end)
             (nonjunk_names (namelist zin)).
Proof.
  intros Hc Hes.
  destruct (convert_cases _ _ _ _ _ Hc)
    as [(e & ? & _)|(zin & w0 & id & path & w1 & b & Hz & Hd & Hb & [= ->] & ->)]; [done|].
  cbn [files] in Hes. rewrite lookup_insert_eq in Hes.
  destruct b; [done|]. injection Hes as <-. by exists zin, w0, id, path.
Qed.

Lemma endswith_slash_free (a e : string) :
  e ≠ "" → Str.forallb not_slash e = true → endswith (a +:+ e) "/" = false.
Proof.
  intros He Hs. rewrite endswith_app_r by (destruct e; [done | simpl; lia]).
  destruct (endswith e "/") eqn:E; [|done].
  apply endswith_inv in E as [r ->]. rewrite string_forallb_app in Hs.
  apply andb_true_iff in Hs as [_ Hs]. done.
Qed.

Lemma after_last_slash_free (cur s t : string) :
  Str.forallb not_slash t = true →
  after_last_slash cur (s +:+ t) = after_last_slash cur s +:+ t.
Proof.
  intros Ht. revert cur. induction s as [|c s IH]; intros cur; simpl.
  - destruct (after_last_slash_cases cur t) as [[_ E]|(a & b & -> & _ & _)]; [done|].
    rewrite string_forallb_app in Ht. apply andb_true_iff in Ht as [_ Ht]. done.
  - destruct (decide (c = "/"%char)); apply IH.
Qed.

(** A name that ends in an underscore, digits, a dot and an extension
    is not called [.DS_Store]. *)
Lemma numbered_basename (x num e : string) :
  Str.forallb isdigit num = true → Str.forallb not_slash e = true →
  basename (x +:+ "_" +:+ num +:+ "." +:+ e) ≠ ".DS_Store".
Proof.
  intros Hd Hs. unfold basename.
  replace (x +:+ "_" +:+ num +:+ "." +:+ e) with (x +:+ ("_" +:+ num +:+ "." +:+ e)) by done.
  rewrite after_last_slash_free.
  2:{ cbn [String.append Str.forallb]. rewrite string_forallb_app, (digits_not_slash _ Hd).
      cbn [String.append Str.forallb]. by rewrite Hs. }
  destruct (after_last_slash "" x) as [|c b]; cbn [String.append].
  - by intros [=].
  - intros [= _ E]. pose proof (contains_app (b +:+ "_" +:+ num) "." e) as Hc.
    rewrite !string_app_assoc in Hc. cbn [String.append] in Hc. by rewrite E in Hc.
Qed.

Lemma is_mac_junk_false (n : string) :
  is_mac_junk n = false
  ↔ startswith n "__MACOSX/" = false ∧ basename n ≠ ".DS_Store".
Proof.
  unfold is_mac_junk, MAC_JUNK_PREFIXES, MAC_JUNK_FILES. cbn [List.existsb].
  rewrite orb_false_r. destruct (startswith n "__MACOSX/"); [by split; [|intros []]|].
  case_bool_decide as Hb; rewrite list_elem_of_singleton in Hb.
  - by split; [|intros []].
  - done.
Qed.

(** The base name of an entry worked on is that of its name without the
    wrapper prefix. *)
Lemma basename_under_prefix (names : list string) (x : string) :
  basename ((flatten_wrapper_prefix names).2 +:+ x) = basename x.
Proof.
  destruct (flatten_wrapper_prefix_cases names) as [-> | (He & _ & _)]; [done|].
  apply endswith_inv in He as [q ->]. unfold basename.
  rewrite string_app_assoc. apply after_last_slash_app.
Qed.

(** What is kept of an entry worked on: its name as it is, or the name
    numbered 1. *)
Lemma kept_name_cases (name new_name : string) (id : Z) :
  rename_or_drop_plate_file name id 1 = (true, new_name) →
  new_name = name
  ∨ ∃ stem e, new_name = "Metadata/" +:+ stem +:+ "_" +:+ "1" +:+ "." +:+ e
              ∧ e ≠ "" ∧ Str.forallb not_slash e = true.
Proof.
  unfold rename_or_drop_plate_file.
  destruct (PLATE_FILE_RX_match name) as [[[[p stem] num_s] ext]|] eqn:Hm;
    [|intros [= <-]; by left].
  destruct (int num_s) as [num|]; [|intros [= <-]; by left].
  destruct (decide (num ≠ id)); [done|].
  apply PLATE_FILE_RX_match_inv in Hm as (-> & _ & _ & _ & _ & _ & e & -> & He & Hs).
  intros [= <-]. right. by exists stem, e.
Qed.

(** X7.  In the container written on the full path, every name the
    pattern [PLATE_FILE_RX] matches carries the number 1, or a number of
    more digits than [int] reads. *)
Theorem full_path_plate_numbers (fs : FS) (inp : Input) (w : log) (out : string) (fs' : FS)
    (es : list entry) :
  convert fs inp = (w, Ok out, fs') →
  files fs' !! out = Some (ZipArchive es) →
  ∀ n' d', (n', d') ∈ es →
    match PLATE_FILE_RX_match n' with
    | Some (_, _, num_s, _) =>
        num_s = "1" ∨ (int_max_str_digits < String.length num_s)%nat
    | None => True
    end.
Proof.
  intros Hc Hes n' d' Hin.
  destruct (convert_full_inv _ _ _ _ _ _ Hc Hes) as (zin & w0 & id & path & _ & _ & ->).
  apply written_elem in Hin as (n & data & _ & _ & Hrn & _).
  unfold rename_or_drop_plate_file in Hrn.
  destruct (PLATE_FILE_RX_match (strip_prefix _ n)) as [[[[p stem] num0] ext]|] eqn:Hm.
  - destruct (int num0) as [N|] eqn:HN.
    + destruct (decide (N ≠ id)); [done|]. injection Hrn as <-.
      pose proof (renumbered_match _ _ _ _ _ 1 ltac:(lia) Hm) as Hm'.
      change (str 1) with "1" in Hm'. cbn [String.append] in Hm' |- *.
      rewrite Hm'. by left.
    + injection Hrn as <-. rewrite Hm. right.
      apply PLATE_FILE_RX_match_inv in Hm as (_ & _ & _ & _ & Hne0 & Hd0 & _).
      destruct (decide (String.length num0 ≤ int_max_str_digits)%nat) as [Hle|]; [|lia].
      destruct (int_digits_ok num0 Hd0 Hne0 Hle) as (N & HN' & _). congruence.
  - injection Hrn as <-. by rewrite Hm.
Qed.

(** X8.  No entry written on the full path is called [.DS_Store] or is a
    directory, and when the container has no wrapper folder none is
    junk. *)
Theorem full_path_names (fs : FS) (inp : Input) (w : log) (out : string) (fs' : FS)
    (es : list entry) (zin : list entry) :
  convert fs inp = (w, Ok out, fs') →
  files fs' !! out = Some (ZipArchive es) →
  zip_read (input_bytes inp) = Some zin →
  ∀ n' d', (n', d') ∈ es →
    basename n' ≠ ".DS_Store"
    ∧ endswith n' "/" = false
    ∧ ((flatten_wrapper_prefix (namelist zin)).2 = "" → is_mac_junk n' = false).
Proof.
  intros Hc Hes Hz n' d' Hin.
  destruct (convert_full_inv _ _ _ _ _ _ Hc Hes) as (zin' & w0 & id & path & Hz' & _ & ->).
  rewrite Hz in Hz'. injection Hz' as <-.
  apply written_elem in Hin as (n & data & Hn & _ & Hrn & _).
  pose proof (strip_prefix_inv _ _ _ Hn eq_refl) as Hnx.
  apply nonjunk_names_elem in Hn as (_ & Hj & Hdir).
  apply is_mac_junk_false in Hj as [Hmac Hbase].
  destruct (kept_name_cases _ _ _ Hrn) as [-> | (stem & e & -> & He & Hs)].
  - split; [|split].
    + rewrite Hnx, basename_under_prefix in Hbase. done.
    + destruct (endswith (strip_prefix _ n) "/") eqn:E; [|done].
      apply endswith_inv in E as [r Hr]. rewrite Hr, <- string_app_assoc in Hnx.
      by rewrite Hnx, endswith_app in Hdir.
    + intros Hp. rewrite Hp in Hnx |- *. cbn [String.append] in Hnx. rewrite <- Hnx.
      by apply is_mac_junk_false.
  - assert (basename ("Metadata/" +:+ stem +:+ "_" +:+ "1" +:+ "." +:+ e) ≠ ".DS_Store") as Hb.
    { rewrite <- string_app_assoc. by apply numbered_basename. }
    split; [done|]. split.
    + rewrite <- !string_app_assoc. by apply endswith_slash_free.
    + intros _. by apply is_mac_junk_false.
Qed.

(** An entry under the wrapper prefix is junk by its name's beginning
    only without the prefix. *)
Lemma under_prefix_not_macosx (names : list string) (x : string) :
  startswith x "__MACOSX/" = false →
  startswith ((flatten_wrapper_prefix names).2 +:+ x) "__MACOSX/" = false.
Proof.
  intros Hx. destruct (flatten_wrapper_prefix_cases names) as [-> | (He & Hc & _)]; [done|].
  apply nonjunk_names_elem in Hc as (_ & [Hm _]%is_mac_junk_false & _).
  by eapply startswith_macosx_under_prefix.
Qed.

(** The id detection returns was read by [int], or is the 1 it falls
    back to: written by [str] it is read again. *)
Lemma parse_metadata_read (l : list Element) (st : option Z * string) (n : Z) (g : string) :
  List.fold_left parse_metadata l st = (Some n, g) →
  st.1 = Some n ∨ ∃ v, int v = Some n.
Proof.
  revert st. induction l as [|md l IH]; intros st; simpl.
  - intros ->. by left.
  - intros Hf. destruct (IH _ Hf) as [Hst | ?]; [|by right].
    unfold parse_metadata in Hst.
    destruct (decide (attrib_get (attrib md) "key" = Some "plater_id")).
    + destruct (int (default "" (attrib_get (attrib md) "value"))) as [k|] eqn:E;
        [|by left].
      simpl in Hst. injection Hst as ->. right. by eexists.
    + destruct (decide (attrib_get (attrib md) "key" = Some "gcode_file")); by left.
Qed.

Lemma parse_plate_read (e : Element) (p : PlateInfo) :
  p ∈ parse_plate e → ∃ v, int v = Some (plater_id p).
Proof.
  unfold parse_plate.
  destruct (List.fold_left parse_metadata (findall e "metadata") (None, "")) as [pid g] eqn:Hf.
  destruct pid as [n|]; [|by intros ?%elem_of_nil].
  intros ->%list_elem_of_singleton. cbn [plater_id].
  by destruct (parse_metadata_read _ _ _ _ Hf) as [?|?].
Qed.

Lemma detect_id_read (z : list entry) (names : list string) (prefix : string)
    (w : log) (id : Z) (path : string) :
  detect_exported_plate_id z names prefix = (w, Ok (id, path)) →
  0 ≤ id → int (str id) = Some id.
Proof.
  intros Hd Hid.
  destruct (detect_Ok_inv _ _ _ _ _ _ Hd) as (d & t & root & _ & _ & _ & _ & Hfrom).
  destruct Hfrom as [-> | (p & Hp & <-)]; [done|].
  apply list_elem_of_In, in_flat_map in Hp as (e & _ & Hp%list_elem_of_In).
  destruct (parse_plate_read e p Hp) as [v Hv]. by apply (int_readable v).
Qed.

(** X9.  On the full path every asset [Metadata/<stem>_<id>.<e>] of the
    exported plate [id], where no underscore of the stem stands before a
    digit, is written as [Metadata/<stem>_1.<e>] with the bytes it had:
    so is the G-code of the plate. *)
Theorem full_path_keeps_plate_assets (fs : FS) (inp : Input) (w : log) (out : string)
    (fs' : FS) (es zin : list entry) (w0 : log) (id : Z) (path stem e : string)
    (data : bytes) :
  convert fs inp = (w, Ok out, fs') →
  files fs' !! out = Some (ZipArchive es) →
  zip_read (input_bytes inp) = Some zin →
  detect_exported_plate_id zin (namelist zin) (flatten_wrapper_prefix (namelist zin)).2
  = (w0, Ok (id, path)) →
  0 ≤ id →
  stem ≠ "" → Str.forallb not_newline stem = true → no_underscore_digit stem = true →
  e ≠ "" → Str.forallb not_slash e = true →
  z_read zin ((flatten_wrapper_prefix (namelist zin)).2
              +:+ "Metadata/" +:+ stem +:+ "_" +:+ str id +:+ "." +:+ e) = Some data →
  ("Metadata/" +:+ stem +:+ "_1." +:+ e, data) ∈ es.
Proof.
  intros Hc Hes Hz Hd Hid Hne Hnl Hu He Hs Hr.
  destruct (convert_full_inv _ _ _ _ _ _ Hc Hes) as (zin' & w0' & id' & path' & Hz' & Hd' & ->).
  rewrite Hz in Hz'. injection Hz' as <-. rewrite Hd in Hd'. injection Hd' as _ <- _.
  destruct (str_nonneg_digits id Hid) as [Hdg Hn].
  apply written_elem. eexists _, data. split; [|split; [exact Hr|]].
  - apply nonjunk_names_elem. split; [by eapply z_read_name|]. split.
    + apply is_mac_junk_false. split; [by apply under_prefix_not_macosx|].
      rewrite basename_under_prefix, <- string_app_assoc. by apply numbered_basename.
    + rewrite <- !string_app_assoc. by apply endswith_slash_free.
  - rewrite strip_prefix_app. unfold rename_or_drop_plate_file.
    rewrite plate_file_match_number by done. rewrite (detect_id_read _ _ _ _ _ _ Hd Hid).
    rewrite decide_False by (by intros ?). split; [done|].
    change (str 1) with "1".
    change ("Metadata/" +:+ stem +:+ "_" +:+ "1" +:+ "." +:+ e)
      with ("Metadata/" +:+ stem +:+ "_1." +:+ e).
    rewrite rewrite_known_file_other; [done|].
    rewrite <- string_app_assoc. apply numbered_not_known.
Qed.

(** X10.  On the full path an entry that is neither junk nor a directory,
    whose name without the wrapper prefix the pattern does not match and
    is none of the five documents rewritten, is written under that name
    with the bytes it had. *)
Theorem full_path_copies_other_entries (fs : FS) (inp : Input) (w : log) (out : string)
    (fs' : FS) (es zin : list entry) (n : string) (data : bytes) :
  convert fs inp = (w, Ok out, fs') →
  files fs' !! out = Some (ZipArchive es) →
  zip_read (input_bytes inp) = Some zin →
  n ∈ nonjunk_names (namelist zin) →
  z_read zin n = Some data →
  PLATE_FILE_RX_match (strip_prefix (flatten_wrapper_prefix (namelist zin)).2 n) = None →
  strip_prefix (flatten_wrapper_prefix (namelist zin)).2 n
  ∉ ["_rels/.rels"; "Metadata/_rels/model_settings.config.rels";
     "Metadata/model_settings.config"; "Metadata/slice_info.config";
     "3D/3dmodel.model"] →
  (strip_prefix (flatten_wrapper_prefix (namelist zin)).2 n, data) ∈ es.
Proof.
  intros Hc Hes Hz Hn Hr Hm Hk.
  destruct (convert_full_inv _ _ _ _ _ _ Hc Hes) as (zin' & w0 & id & path & Hz' & _ & ->).
  rewrite Hz in Hz'. injection Hz' as <-.
  apply written_elem. exists n, data. do 2 (split; [done|]). split.
  - unfold rename_or_drop_plate_file. by rewrite Hm.
  - by rewrite rewrite_known_file_other.
Qed.

End FullPath.

(** X7 at the archive of two plates: the thumbnail written is that of
    plate 2, under the number 1. *)
Lemma full_path_plate_numbers_witness :
  match PLATE_FILE_RX_match "Metadata/plate_1.png" with
  | Some (_, _, num_s, _) =>
      num_s = "1" ∨ (int_max_str_digits < String.length num_s)%nat
  | None => True
  end.
Proof.
  pose (rt := Sample.runtime [Sample.two_plates]
                [(Sample.text "two plates", Sample.two_plates_zip)]).
  pose (r := @convert rt Sample.empty_dir Sample.two_plates_file).
  apply (@full_path_plate_numbers rt Sample.empty_dir Sample.two_plates_file
           r.1.1 "foo_plate2.gcode.3mf" r.2
           (match files r.2 !! "foo_plate2.gcode.3mf" with
            | Some (ZipArchive es) => es
            | _ => []
            end)
           ltac:(by vm_compute) ltac:(by vm_compute)
           "Metadata/plate_1.png" (Sample.text "png2")).
  apply list_elem_of_In. vm_compute. tauto.
Defined.

(** X8 at the archive of two plates, for the G-code written. *)
Lemma full_path_names_witness :
  basename "Metadata/plate_1.gcode" ≠ ".DS_Store"
  ∧ endswith "Metadata/plate_1.gcode" "/" = false
  ∧ ((flatten_wrapper_prefix (namelist Sample.two_plates_zip)).2 = ""
     → is_mac_junk "Metadata/plate_1.gcode" = false).
Proof.
  pose (rt := Sample.runtime [Sample.two_plates]
                [(Sample.text "two plates", Sample.two_plates_zip)]).
  pose (r := @convert rt Sample.empty_dir Sample.two_plates_file).
  apply (@full_path_names rt Sample.empty_dir Sample.two_plates_file
           r.1.1 "foo_plate2.gcode.3mf" r.2
           (match files r.2 !! "foo_plate2.gcode.3mf" with
            | Some (ZipArchive es) => es
            | _ => []
            end)
           Sample.two_plates_zip
           ltac:(by vm_compute) ltac:(by vm_compute) ltac:(by vm_compute)
           "Metadata/plate_1.gcode" (Sample.text "G28")).
  apply list_elem_of_In. vm_compute. tauto.
Defined.

(** X9 at the archive of two plates: the G-code of plate 2 is written as
    that of plate 1. *)
Lemma full_path_keeps_plate_assets_witness :
  let rt := Sample.runtime [Sample.two_plates]
              [(Sample.text "two plates", Sample.two_plates_zip)] in
  let r := @convert rt Sample.empty_dir Sample.two_plates_file in
  ("Metadata/" +:+ "plate" +:+ "_1." +:+ "gcode", Sample.text "G28")
  ∈ match files r.2 !! "foo_plate2.gcode.3mf" with
    | Some (ZipArchive es) => es
    | _ => []
    end.
Proof.
  intros rt r.
  apply (@full_path_keeps_plate_assets rt Sample.empty_dir Sample.two_plates_file
           r.1.1 "foo_plate2.gcode.3mf" r.2 _ Sample.two_plates_zip
           [] 2 "Metadata/plate_2.gcode" "plate" "gcode" (Sample.text "G28"));
    (by vm_compute) || lia.
Defined.

(** X10 at the archive of two plates, for the manifest. *)
Lemma full_path_copies_other_entries_witness :
  let rt := Sample.runtime [Sample.two_plates]
              [(Sample.text "two plates", Sample.two_plates_zip)] in
  let r := @convert rt Sample.empty_dir Sample.two_plates_file in
  (strip_prefix (flatten_wrapper_prefix (namelist Sample.two_plates_zip)).2
     "[Content_Types].xml", Sample.text "<Types />")
  ∈ match files r.2 !! "foo_plate2.gcode.3mf" with
    | Some (ZipArchive es) => es
    | _ => []
    end.
Proof.
  intros rt r.
  apply (@full_path_copies_other_entries rt Sample.empty_dir Sample.two_plates_file
           r.1.1 "foo_plate2.gcode.3mf" r.2 _ Sample.two_plates_zip
           "[Content_Types].xml" (Sample.text "<Types />"));
    try (by vm_compute).
  - apply list_elem_of_In. vm_compute. tauto.
  - intros Hin%list_elem_of_In. vm_compute in Hin. intuition discriminate.
Defined.

(* ===================================================================== *)
(** ** What the fast path is taken for                                    *)
(* ===================================================================== *)

Section FastPath.
Context `{Runtime}.

(** The loop over the names runs to its end only when every entry worked
    on that the pattern matches carries a number read as 1. *)
Lemma other_plate_asset_false (prefix : string) (names : list string) :
  other_plate_asset prefix names = Ok false →
  ∀ n, n ∈ nonjunk_names names →
    match PLATE_FILE_RX_match (strip_prefix prefix n) with
    | Some (_, _, num_s, _) => int num_s = Some 1
    | None => True
    end.
Proof.
  induction names as [|a names IH]; intros Hf n Hn.
  { by apply elem_of_nil in Hn. }
  apply nonjunk_names_elem in Hn as (Hin & Hj & Hd). simpl in Hf.
  apply elem_of_cons in Hin as [->|Hin].
  - rewrite Hj, Hd in Hf. simpl in Hf.
    destruct (PLATE_FILE_RX_match _) as [[[[p stem] num_s] ext]|]; [|done].
    destruct (int num_s) as [N|]; [|done].
    destruct (decide (N ≠ 1)) as [|E]; [done|]. by apply dec_stable in E as ->.
  - apply IH; [|by apply nonjunk_names_elem].
    destruct (is_mac_junk a || endswith a "/"); [done|].
    destruct (PLATE_FILE_RX_match _) as [[[[p stem] num_s] ext]|]; [|done].
    destruct (int num_s) as [N|]; [|done]. by destruct (decide (N ≠ 1)).
Qed.

(** X11.  A conversion that wrote a copy of the input's bytes did so for
    a container whose plate listing parses into one plate with id 1,
    none of whose entries worked on carries a plate number other than 1,
    and whose [_rels/.rels], if it is read, names neither [plate_2] nor
    [plate_3]. *)
Theorem fast_path_sound (fs : FS) (inp : Input) (w : log) (out : string) (fs' : FS)
    (b : bytes) (zin : list entry) :
  convert fs inp = (w, Ok out, fs') →
  files fs' !! out = Some (RawBytes b) →
  zip_read (input_bytes inp) = Some zin →
  b = input_bytes inp
  ∧ (∃ d text only,
       z_read zin ((flatten_wrapper_prefix (namelist zin)).2 +:+ "Metadata/model_settings.config")
       = Some d
       ∧ utf8_decode d = Some text
       ∧ parse_model_settings_config text = Ok [only]
       ∧ plater_id only = 1)
  ∧ (∀ n, n ∈ nonjunk_names (namelist zin) →
       match PLATE_FILE_RX_match (strip_prefix (flatten_wrapper_prefix (namelist zin)).2 n) with
       | Some (_, _, num_s, _) => int num_s = Some 1
       | None => True
       end)
  ∧ (∀ d rels,
       z_read zin ((flatten_wrapper_prefix (namelist zin)).2 +:+ "_rels/.rels") = Some d →
       utf8_decode d = Some rels →
       contains rels "plate_2" = false ∧ contains rels "plate_3" = false).
Proof.
  intros Hc Hb Hz.
  destruct (convert_cases _ _ _ _ _ Hc)
    as [(e & ? & _)|(zin' & w0 & id & path & w1 & fast & Hz' & _ & Hfast & [= ->] & ->)];
    [done|].
  rewrite Hz in Hz'. injection Hz' as <-.
  cbn [files] in Hb. rewrite lookup_insert_eq in Hb.
  destruct fast; [|done]. injection Hb as <-. split; [done|].
  revert Hfast. generalize (flatten_wrapper_prefix (namelist zin)).2. intros prefix.
  unfold is_already_single_plate, read_text.
  destruct (z_read zin (prefix +:+ "Metadata/model_settings.config")) as [d|]; [|done].
  destruct (utf8_decode d) as [[|c text]|] eqn:Hdec; [done| |done].
  destruct (parse_model_settings_config (String c text)) as [[|only [|p ps]]|] eqn:Hp; try done.
  destruct (decide (plater_id only ≠ 1)) as [|Hid]; [done|]. apply dec_stable in Hid.
  destruct (other_plate_asset prefix (namelist zin)) as [[|]|] eqn:Ho; try done.
  intros Hrels. split; [by exists d, (String c text), only|].
  split; [by apply other_plate_asset_false|].
  intros d' rels Hr' Hdec'. rewrite Hr', Hdec' in Hrels.
  destruct rels as [|c' rels]; [done|].
  destruct (contains (String c' rels) "plate_2"); [done|].
  by destruct (contains (String c' rels) "plate_3").
Qed.

End FastPath.

(** X11 at the archive that is already a single plate. *)
Lemma fast_path_sound_witness :
  let rt := Sample.runtime [Sample.one_plate]
              [(Sample.text "one plate", Sample.one_plate_zip)] in
  let zin := Sample.one_plate_zip in
  Sample.text "one plate" = input_bytes Sample.one_plate_file
  ∧ (∃ d text only,
       z_read zin ((flatten_wrapper_prefix (namelist zin)).2 +:+ "Metadata/model_settings.config")
       = Some d
       ∧ @utf8_decode rt d = Some text
       ∧ @parse_model_settings_config rt text = Ok [only]
       ∧ plater_id only = 1)
  ∧ (∀ n, n ∈ nonjunk_names (namelist zin) →
       match PLATE_FILE_RX_match (strip_prefix (flatten_wrapper_prefix (namelist zin)).2 n) with
       | Some (_, _, num_s, _) => int num_s = Some 1
       | None => True
       end)
  ∧ (∀ d rels,
       z_read zin ((flatten_wrapper_prefix (namelist zin)).2 +:+ "_rels/.rels") = Some d →
       @utf8_decode rt d = Some rels →
       contains rels "plate_2" = false ∧ contains rels "plate_3" = false).
Proof.
  intros rt zin.
  apply (@fast_path_sound rt Sample.empty_dir Sample.one_plate_file
           (@convert rt Sample.empty_dir Sample.one_plate_file).1.1
           "clean_plate1.gcode.3mf"
           (@convert rt Sample.empty_dir Sample.one_plate_file).2);
    by vm_compute.
Defined.

(* ===================================================================== *)
(** ** The documents rewritten                                            *)
(* ===================================================================== *)

Section Documents.
Context `{Runtime}.

Lemma find_first {A} (f : A → bool) (l : list A) (x : A) :
  List.find f l = Some x →
  ∃ before after, l = before ++ x :: after ∧ f x = true ∧ ∀ y, y ∈ before → f y = false.
Proof.
  induction l as [|a l IH]; simpl; [done|]. destruct (f a) eqn:E.
  - intros [= ->]. exists [], l. split; [done|]. split; [done|].
    by intros y ?%elem_of_nil.
  - intros Hf. destruct (IH Hf) as (before & after & -> & Hx & Hb).
    exists (a :: before), after. split; [done|]. split; [done|].
    intros y [->|Hy]%elem_of_cons; [done | by apply Hb].
Qed.

Lemma findall_tag (e c : Element) (t : string) : c ∈ findall e t → tag c = t.
Proof.
  unfold findall. intros Hc%list_elem_of_In. apply filter_In in Hc as [_ Hc].
  by apply bool_decide_eq_true in Hc.
Qed.

Lemma map_children_Forall2 (t : string) (f : Element → Element) (e : Element) :
  Forall2 (λ c c', c' = if bool_decide (tag c = t) then f c else c)
    (children e) (children (map_children t f e)).
Proof.
  unfold map_children. cbn [children].
  induction (children e) as [|c cs IH]; [by constructor|]. by constructor.
Qed.

(** After the index metadata are set the plate is read with the new
    index, if it has such a metadata and [int] reads the new index. *)
Lemma rewritten_slice_index (new : Z) (l : list Element) (acc : option Z) :
  0 ≤ new → (String.length (str new) ≤ int_max_str_digits)%nat →
  acc = Some new ∨ (∃ md, md ∈ l ∧ attrib_get (attrib md) "key" = Some "index") →
  List.fold_left slice_idx
    (List.map (λ md, if decide (attrib_get (attrib md) "key" = Some "index")
                     then set md "value" (str new) else md) l) acc
  = Some new.
Proof.
  intros Hnew Hlen. revert acc. induction l as [|md l IH]; intros acc Hacc; simpl.
  - destruct Hacc as [-> | (md & Hmd%elem_of_nil & _)]; done.
  - apply IH. unfold slice_idx at 1.
    destruct (decide (attrib_get (attrib md) "key" = Some "index")) as [Hk|Hk].
    + left. cbn [set attrib]. rewrite attrib_get_set_ne by done.
      rewrite decide_True by done. rewrite attrib_get_set_eq. by apply int_str.
    + rewrite decide_False by done.
      destruct Hacc as [-> | (md' & [->|Hmd]%elem_of_cons & Hk')]; [by left | done |].
      right. by exists md'.
Qed.

(** X12.  On a [slice_info.config] that parses and has a plate,
    [rewrite_slice_info_config] keeps the first plate whose index is
    [keep_plate_id], or the first plate when there is none; it writes the
    document with its children that are no plates in their order, then,
    last, the plate kept, whose [index] metadata have the new number as
    value and whose other children are as they were. *)
Theorem rewrite_slice_info_config_spec (text : string) (keep_plate_id new_plate_id : Z)
    (root : Element) :
  ET_fromstring text = Some root →
  findall root "plate" ≠ [] →
  ∃ before kept after kept' root',
    rewrite_slice_info_config text keep_plate_id new_plate_id = ([], ET_tostring root')
    ∧ findall root "plate" = before ++ kept :: after
    ∧ (∀ p, p ∈ before → slice_index p ≠ Some keep_plate_id)
    ∧ (slice_index kept = Some keep_plate_id
       ∨ before = [] ∧ ∀ p, p ∈ after → slice_index p ≠ Some keep_plate_id)
    ∧ tag root' = tag root ∧ attrib root' = attrib root
    ∧ children root' = List.filter not_plate (children root) ++ [kept']
    ∧ findall root' "plate" = [kept']
    ∧ tag kept' = tag kept ∧ attrib kept' = attrib kept
    ∧ Forall2 (λ c c', c' = if index_metadata c then set c "value" (str new_plate_id) else c)
        (children kept) (children kept')
    ∧ (0 ≤ new_plate_id →
       (String.length (str new_plate_id) ≤ int_max_str_digits)%nat →
       (∃ md, md ∈ findall kept "metadata" ∧ attrib_get (attrib md) "key" = Some "index") →
       slice_index kept' = Some new_plate_id).
Proof.
  intros Hroot Hne. unfold rewrite_slice_info_config. rewrite Hroot.
  destruct (findall root "plate") as [|first rest] eqn:Hp; [done|].
  set (f := λ pe, bool_decide
                    (List.fold_left slice_idx (findall pe "metadata") None = Some keep_plate_id)).
  set (g := λ md, if decide (attrib_get (attrib md) "key" = Some "index")
                  then set md "value" (str new_plate_id) else md).
  assert (∃ before kept after,
            default first (List.find f (first :: rest)) = kept
            ∧ first :: rest = before ++ kept :: after
            ∧ (∀ p, p ∈ before → slice_index p ≠ Some keep_plate_id)
            ∧ (slice_index kept = Some keep_plate_id
               ∨ before = [] ∧ ∀ p, p ∈ after → slice_index p ≠ Some keep_plate_id))
    as (before & kept & after & -> & Hsplit & Hbefore & Hkept).
  { destruct (List.find f (first :: rest)) as [k|] eqn:Hf.
    - apply find_first in Hf as (before & after & Hsplit & Hk & Hb).
      exists before, k, after. do 2 (split; [done|]). split.
      + intros p Hp'. specialize (Hb p Hp'). by apply bool_decide_eq_false in Hb.
      + left. by apply bool_decide_eq_true in Hk.
    - exists [], first, rest. do 2 (split; [done|]). split; [by intros p ?%elem_of_nil|].
      right. split; [done|]. intros p Hp'.
      assert (In p (first :: rest)) as Hin by (right; by apply list_elem_of_In).
      pose proof (find_none _ _ Hf p Hin) as Hn. by apply bool_decide_eq_false in Hn. }
  assert (tag kept = "plate") as Ht.
  { apply (findall_tag root). rewrite Hp, Hsplit.
    apply elem_of_app. right. by left. }
  exists before, kept, after, (map_children "metadata" g kept),
    (keep_only root (map_children "metadata" g kept)).
  do 4 (split; [done|]). do 2 (split; [done|]).
  split; [done|]. split; [by apply keep_only_findall|].
  do 2 (split; [done|]). split.
  - eapply Forall2_impl; [apply map_children_Forall2|].
    intros c c' ->. unfold index_metadata, g.
    destruct (bool_decide (tag c = "metadata")); [|done]. cbn [andb].
    by destruct (decide (attrib_get (attrib c) "key" = Some "index")) as [Hk|Hk];
      [rewrite bool_decide_eq_true_2 | rewrite bool_decide_eq_false_2].
  - intros Hnew Hlen Hmd. unfold slice_index. rewrite findall_map_children.
    + apply rewritten_slice_index; [done | done | by right].
    + intros c. unfold g. by destruct (decide _).
Qed.



Lemma replace_go_same (p : string) (k : nat) (s : string) :
  p ≠ "" → replace_go p p k s = drop k s.
Proof.
  intros Hp. revert k. induction s as [|c s IH]; intros k; simpl; [by destruct k|].
  destruct k as [|k]; [|apply IH].
  destruct (startswith (String c s) p) eqn:Hst.
  - apply startswith_inv in Hst as [r Hr]. destruct p as [|a p]; [done|].
    simpl in Hr. injection Hr as -> ->. rewrite IH. cbn [String.length].
    replace (S (String.length p) - 1)%nat with (String.length p) by lia.
    by rewrite string_drop_app.
  - by rewrite IH.
Qed.

(** Replacing a text by itself changes nothing. *)
Lemma replace_same (s p : string) : replace s p p = s.
Proof.
  destruct p as [|a p]; simpl.
  - induction s as [|c s IH]; simpl; [done | by rewrite IH].
  - by rewrite replace_go_same.
Qed.

(** X14.  For a plate that already has the new number nothing is
    rewritten: [rewrite_xml_cover_rels] returns the text it was given and
    the second loop of [rewrite_model_settings_config] leaves every
    metadata that is no [plater_id] as it is. *)
Theorem rewrite_same_plate_id (text : string) (n : Z) (md : Element) :
  rewrite_xml_cover_rels text n n = text
  ∧ (attrib_get (attrib md) "key" ≠ Some "plater_id" → rewrite_plate_metadata n n md = md).
Proof.
  split.
  - unfold rewrite_xml_cover_rels. by rewrite !replace_same.
  - intros Hk. unfold rewrite_plate_metadata. rewrite decide_False by done.
    cbv zeta. rewrite !replace_same. by rewrite decide_True.
Qed.

End Documents.

(** X12 at a [slice_info.config] of two plates, keeping plate 2. *)
Lemma rewrite_slice_info_config_spec_witness :
  let doc := Sample.config [Sample.plate [Sample.metadata "index" "1"];
                            Sample.plate [Sample.metadata "index" "2";
                                          Sample.metadata "weight" "12.5"]] in
  let rt := Sample.runtime [doc] [] in
  ∃ before kept after kept' root',
    @rewrite_slice_info_config rt (Sample.print_element doc) 2 1
    = ([], @ET_tostring rt root')
    ∧ findall doc "plate" = before ++ kept :: after
    ∧ (∀ p, p ∈ before → slice_index p ≠ Some 2)
    ∧ (slice_index kept = Some 2 ∨ before = [] ∧ ∀ p, p ∈ after → slice_index p ≠ Some 2)
    ∧ tag root' = tag doc ∧ attrib root' = attrib doc
    ∧ children root' = List.filter not_plate (children doc) ++ [kept']
    ∧ findall root' "plate" = [kept']
    ∧ tag kept' = tag kept ∧ attrib kept' = attrib kept
    ∧ Forall2 (λ c c', c' = if index_metadata c then set c "value" (str 1) else c)
        (children kept) (children kept')
    ∧ (0 ≤ 1 →
       (String.length (str 1) ≤ int_max_str_digits)%nat →
       (∃ md, md ∈ findall kept "metadata" ∧ attrib_get (attrib md) "key" = Some "index") →
       slice_index kept' = Some 1).
Proof.
  intros doc rt.
  apply (@rewrite_slice_info_config_spec rt (Sample.print_element doc) 2 1 doc);
    by vm_compute.
Defined.


(* ===================================================================== *)
(** ** Further behaviour of the renaming and of repeated conversions      *)
(* ===================================================================== *)

Section Further.
Context `{Runtime}.

(** A run of digits before an underscore is no number with an
    extension. *)
Lemma num_ext_digits_underscore (num y : string) :
  Str.forallb isdigit num = true → num_ext (num +:+ String "_"%char y) = None.
Proof.
  intros Hd. unfold num_ext. rewrite (string_span_app isdigit num "_"%char y Hd eq_refl).
  rewrite (bool_decide_eq_false_2 ("_"%char = "."%char)) by done.
  by rewrite andb_false_r.
Qed.

(** The lazy stem takes a character that is no underscore. *)
Lemma stem_num_ext_step (acc : string) (c : ascii) (s : string) :
  c ≠ "_"%char → not_newline c = true →
  stem_num_ext acc (String c s) = stem_num_ext (acc +:+ String c "") s.
Proof.
  intros Hu Hnl. cbn [stem_num_ext]. rewrite decide_False by done. rewrite Hnl.
  by destruct acc.
Qed.

(** The lazy stem takes a run of digits. *)
Lemma stem_num_ext_digits (acc num rest : string) :
  Str.forallb isdigit num = true →
  stem_num_ext acc (num +:+ rest) = stem_num_ext (acc +:+ num) rest.
Proof.
  revert acc. induction num as [|c num IH]; intros acc Hd.
  - by rewrite string_app_nil_r.
  - cbn [Str.forallb] in Hd. apply andb_true_iff in Hd as [Hc Hd].
    destruct (isdigit_not_sign c Hc) as (_ & _ & Hu & _).
    cbn [String.append]. rewrite stem_num_ext_step; [|done|].
    + rewrite (IH _ Hd). by rewrite string_app_assoc.
    + unfold not_newline. rewrite bool_decide_eq_false_2; [done|]. by intros ->.
Qed.

(** X15.  The small thumbnail [Metadata/plate_<k>_small.png] of any plate
    [k] is not matched by the pattern, whose number must stand directly
    before the extension: it is neither dropped nor renamed, whatever the
    plate kept. *)
Theorem small_thumbnail_not_renamed (k keep_plate_id new_plate_id : Z) :
  0 ≤ k →
  PLATE_FILE_RX_match ("Metadata/plate_" +:+ str k +:+ "_small.png") = None
  ∧ rename_or_drop_plate_file ("Metadata/plate_" +:+ str k +:+ "_small.png")
      keep_plate_id new_plate_id
    = (true, "Metadata/plate_" +:+ str k +:+ "_small.png").
Proof.
  intros Hk. destruct (str_nonneg_digits k Hk) as [Hd Hn].
  assert (PLATE_FILE_RX_match ("Metadata/plate_" +:+ str k +:+ "_small.png") = None) as Hm.
  { unfold PLATE_FILE_RX_match.
    change ("Metadata/plate_" +:+ str k +:+ "_small.png")
      with ("Metadata/" +:+ "plate_" +:+ str k +:+ "_small.png").
    rewrite startswith_app, string_drop_app. cbn [String.append].
    rewrite !stem_num_ext_step by done. cbn [String.append stem_num_ext].
    rewrite decide_True by done.
    rewrite (num_ext_digits_underscore (str k) "small.png" Hd).
    change (not_newline "_") with true. cbn [String.append].
    rewrite (stem_num_ext_digits "plate_" (str k) "_small.png" Hd).
    generalize ("plate_" +:+ str k). intros acc. by destruct acc. }
  split; [done|]. unfold rename_or_drop_plate_file. by rewrite Hm.
Qed.

(** X16.  A second conversion into the same directory writes under
    another name than the first and leaves the first file as it is. *)
Theorem convert_twice_distinct (fs fs1 fs2 : FS) (inp inp' : Input) (w w' : log)
    (out out' : string) :
  convert fs inp = (w, Ok out, fs1) →
  convert fs1 inp' = (w', Ok out', fs2) →
  out' ≠ out
  ∧ is_Some (files fs1 !! out)
  ∧ files fs2 !! out = files fs1 !! out
  ∧ is_Some (files fs2 !! out').
Proof.
  intros Hc Hc'.
  destruct (convert_cases _ _ _ _ _ Hc)
    as [(e & ? & _)|(zin & w0 & id & path & w1 & b & _ & _ & _ & [= ->] & ->)]; [done|].
  destruct (convert_cases _ _ _ _ _ Hc')
    as [(e & ? & _)|(zin' & w0' & id' & path' & w1' & b' & _ & _ & _ & [= ->] & ->)]; [done|].
  set (fs1 := mkFS true _).
  pose proof (compute_output_path_free fs1 (input_name inp') id') as Hfree.
  assert (is_Some (files fs1 !! (compute_output_path fs (input_name inp) id).1)) as Hsome.
  { unfold fs1. cbn [files]. by rewrite lookup_insert_eq. }
  assert ((compute_output_path fs1 (input_name inp') id').1
          ≠ (compute_output_path fs (input_name inp) id).1) as Hne.
  { intros E. rewrite E in Hfree. rewrite Hfree in Hsome. by destruct Hsome. }
  split; [done|]. split; [done|]. cbn [files]. split.
  - by rewrite lookup_insert_ne.
  - by rewrite lookup_insert_eq.
Qed.

End Further.

(** X15 at the small thumbnail of plate 2, when plate 2 is kept. *)
Lemma small_thumbnail_not_renamed_witness :
  PLATE_FILE_RX_match ("Metadata/plate_" +:+ str 2 +:+ "_small.png") = None
  ∧ rename_or_drop_plate_file ("Metadata/plate_" +:+ str 2 +:+ "_small.png") 2 1
    = (true, "Metadata/plate_" +:+ str 2 +:+ "_small.png").
Proof. apply (small_thumbnail_not_renamed 2 2 1). lia. Defined.

(** X16 at the archive of two plates, converted twice. *)
Lemma convert_twice_distinct_witness :
  let rt := Sample.runtime [Sample.two_plates]
              [(Sample.text "two plates", Sample.two_plates_zip)] in
  let fs1 := (@convert rt Sample.empty_dir Sample.two_plates_file).2 in
  let fs2 := (@convert rt fs1 Sample.two_plates_file).2 in
  "foo_plate2_1.gcode.3mf" ≠ "foo_plate2.gcode.3mf"
  ∧ is_Some (files fs1 !! "foo_plate2.gcode.3mf")
  ∧ files fs2 !! "foo_plate2.gcode.3mf" = files fs1 !! "foo_plate2.gcode.3mf"
  ∧ is_Some (files fs2 !! "foo_plate2_1.gcode.3mf").
Proof.
  intros rt fs1 fs2.
  apply (@convert_twice_distinct rt Sample.empty_dir fs1 fs2
           Sample.two_plates_file Sample.two_plates_file
           (@convert rt Sample.empty_dir Sample.two_plates_file).1.1
           (@convert rt fs1 Sample.two_plates_file).1.1);
    by vm_compute.
Defined.
